(** * Farm-mapping derived metrics ([deriveMetrics])

    A shallow embedding of the metric derivation of the farm-mapping view:
    the function that turns the raw weather / soil payload into the crop
    health score, the irrigation and nutrient advice, the temperature alert,
    the seven-day trend and the soil-health index.

    Numbers.  A JavaScript number is modelled as a rational ([Q]), the
    value it holds; the payload, being JSON, holds no NaN and no infinity.
    Comparisons, [Math.round] (an integer, [Z]) and [toFixed] act on that
    value as they do in the engine.  Sums and products are taken exactly,
    except in the irrigation block, which is written over the arithmetic
    it is run with ([_with] definitions): its rule is stated for any
    arithmetic, binary64's ([Js.fadd] and the like) as well as the exact
    one.  An absent ([undefined]) or [null] value is [None]. *)

From Stdlib Require Import QArith Qround Qminmax Qabs ZArith List String Bool.
From Stdlib Require Import Lia Lqa.
From Stdlib Require Import DecimalString.
Import ListNotations.

Open Scope Q_scope.

(** ** The JavaScript operations the function uses *)

Module Js.

(** [x < y] and [x > y] on numbers. *)
Definition ltb (x y : Q) : bool := negb (Qle_bool y x).
Definition gtb (x y : Q) : bool := ltb y x.

(** [Math.round]: the nearest integer, a tie going up. *)
Definition Math_round (x : Q) : Z := Qfloor (x + 0.5).

Definition Math_max (a b : Q) : Q := if ltb a b then b else a.
Definition Math_min (a b : Q) : Q := if ltb b a then b else a.

(** [x ?? d]. *)
Definition nullish {A : Type} (x : option A) (d : A) : A :=
  match x with
  | Some v => v
  | None => d
  end.

(** [ToNumber] on a number or [null]: [null] compares and subtracts
    as [0]. *)
Definition ToNumber (x : option Q) : Q := nullish x 0.

(** [b || 0] on a number or [null]. *)
Definition or_zero (x : option Q) : Q := nullish x 0.

(** The number that [x.toFixed(d)] prints: the value [x] holds, rounded
    to [d] decimals, a tie going away from zero ([toFixed] rounds the
    magnitude and picks the larger candidate).  [x] is the value held, not
    the decimal a text writes for it: what is written 0.35 is held as
    [binary64 0.35], just below, and prints as 0.3. *)
Definition toFixed (d : nat) (x : Q) : Q :=
  let s := inject_Z (10 ^ Z.of_nat d) in
  if ltb x 0
  then - (inject_Z (Qfloor ((- x) * s + 0.5)) / s)
  else inject_Z (Qfloor (x * s + 0.5)) / s.

(** The nearest integer, a tie going to the even one. *)
Definition round_half_even (s : Q) : Z :=
  let f := Qfloor s in
  match Qcompare (s - inject_Z f) (1 # 2) with
  | Lt => f
  | Gt => (f + 1)%Z
  | Eq => if Z.even f then f else (f + 1)%Z
  end.

(** [floor (log2 a)] for a positive [a]. *)
Definition binade (a : Q) : Z :=
  let e := (Z.log2 (Qnum a) - Z.log2 (Z.pos (Qden a)))%Z in
  if Qle_bool (2 ^ e) a then e else (e - 1)%Z.

(** The binary64 number nearest to [x]: 53 significant bits, exponents from
    -1074, a tie going to the even significand.  Overflow to infinity is
    left out. *)
Definition binary64 (x : Q) : Q :=
  if Qeq_bool x 0 then 0 else
  let a := Qabs x in
  let q := Z.max (binade a - 52) (-1074) in
  let r := inject_Z (round_half_even (a / 2 ^ q)) * 2 ^ q in
  Qred (if Qle_bool 0 x then r else - r).

(** The arithmetic of the engine on finite numbers: the exact result,
    rounded to binary64. *)
Definition fadd (a b : Q) : Q := binary64 (a + b).
Definition fsub (a b : Q) : Q := binary64 (a - b).
Definition fmul (a b : Q) : Q := binary64 (a * b).
Definition fdiv (a b : Q) : Q := binary64 (a / b).

(** [`${n}`] for an integer [n]. *)
Definition show (n : Z) : string := NilZero.string_of_int (Z.to_int n).

(** The only exception the function can raise: the engine's [TypeError],
    on reading a property of [null] / [undefined] or calling a method a
    value does not have. *)
Inductive exn : Type := TypeError.

Inductive result (A : Type) : Type :=
| Ok (a : A)
| Throw (e : exn).
Arguments Ok {A} a.
Arguments Throw {A} e.

Definition bind {A B : Type} (m : result A) (k : A -> result B) : result B :=
  match m with
  | Ok a => k a
  | Throw e => Throw e
  end.

End Js.

Import Js.

Notation "x <- m ;; k" := (bind m (fun x => k))
  (at level 61, m at next level, right associativity).
Infix "<?" := ltb (at level 70, no associativity) : Q_scope.
Infix ">?" := gtb (at level 70, no associativity) : Q_scope.
Infix "??" := nullish (at level 75, right associativity).

(** ** The raw payload *)

(** A property of [daily] or [hourly] that should hold a series.
    [Arr xs] is a JSON array of numbers and [null]s; [Absent] is a missing
    or [null] property; [Other t] is any value that is not a sequence
    (a number, a boolean, a plain object), of truthiness [t]: indexing it
    gives [undefined], and it has no [reduce] and no [map]. *)
Inductive series : Type :=
| Absent
| Arr (xs : list (option Q))
| Other (truthy : bool).

(** [s?.[i]] *)
Definition at_index (s : series) (i : nat) : option Q :=
  match s with
  | Arr xs => nth i xs None
  | _ => None
  end.

Record Current : Type := {
  temperature_2m       : option Q;
  relative_humidity_2m : option Q;
  precipitation        : option Q
}.

Record Daily : Type := {
  temperature_2m_max           : series;
  temperature_2m_min           : series;
  precipitation_sum            : series;
  et0_fao_evapotranspiration   : series;
  uv_index_max                 : series;
  soil_moisture_0_to_10cm_mean : series
}.

Record Hourly : Type := {
  soil_temperature_0cm    : series;
  soil_moisture_0_to_1cm  : series;
  vapour_pressure_deficit : series
}.

Record Wx : Type := {
  current : option Current;
  daily   : option Daily;
  hourly  : option Hourly
}.

(** What [fetchFarmAnalysis] returns; [deriveMetrics] reads [wx] only. *)
Record Raw : Type := { wx : option Wx }.

(** The empty object [{}] that stands in for a missing section. *)
Definition no_current : Current := Build_Current None None None.
Definition no_daily : Daily :=
  Build_Daily Absent Absent Absent Absent Absent Absent.
Definition no_hourly : Hourly := Build_Hourly Absent Absent Absent.

(** [raw.wx?.current || {}], and the same for [daily] and [hourly]. *)
Definition section {A : Type} (w : option Wx) (f : Wx -> option A)
    (empty : A) : A :=
  match w with
  | Some x => f x ?? empty
  | None => empty
  end.

(** ** Health score *)

Section Health.

Variables temp humidity vpd uvMax soilM : Q.

(** temp penalty, ideal 18-30 C *)
Definition temp_penalty (health : Q) : Q :=
  if temp <? 10 then health - 30
  else if temp <? 18 then health - (18 - temp) * 2
  else if temp >? 38 then health - (temp - 38) * 4
  else if temp >? 32 then health - (temp - 32) * 2
  else health.

(** humidity penalty, ideal 50-80% *)
Definition humidity_penalty (health : Q) : Q :=
  if humidity <? 30 then health - 15
  else if humidity <? 50 then health - (50 - humidity) * 0.5
  else if humidity >? 90 then health - 10
  else health.

(** VPD penalty, above 2 kPa is stress *)
Definition vpd_penalty (health : Q) : Q :=
  if vpd >? 3.5 then health - 20
  else if vpd >? 2 then health - (vpd - 2) * 8
  else health.

(** UV penalty *)
Definition uv_penalty (health : Q) : Q :=
  if uvMax >? 9 then health - 10
  else if uvMax >? 7 then health - 5
  else health.

(** soil moisture bonus *)
Definition soil_moisture_bonus (health : Q) : Q :=
  if soilM >? 0.3 then health + 5
  else if soilM <? 0.1 then health - 15
  else health.

(** The accumulator before the final rounding and clamp. *)
Definition health_raw : Q :=
  soil_moisture_bonus
    (uv_penalty (vpd_penalty (humidity_penalty (temp_penalty 100)))).

Definition health_score : Z :=
  Z.max 0 (Z.min 100 (Math_round health_raw)).

End Health.

Inductive StressLevel : Type := HEALTHY | MODERATE | HIGH | CRITICAL.

Definition stress_level (health : Z) : StressLevel :=
  if (health >=? 75)%Z then HEALTHY
  else if (health >=? 50)%Z then MODERATE
  else if (health >=? 30)%Z then HIGH
  else CRITICAL.

Definition stress_color (health : Z) : string :=
  if (health >=? 75)%Z then "#00ff88"
  else if (health >=? 50)%Z then "#ffd60a"
  else if (health >=? 30)%Z then "#ff6b2b"
  else "#ff3864".

(** ** Irrigation recommendation *)

Inductive Urgency : Type := URGENT | SOON | IRRIG_OK.

(** [(s || dflt)], about to receive an array method ([reduce], [map]):
    a truthy value that is not an array has no such method. *)
Definition or_array (s : series) (dflt : list (option Q))
    : result (list (option Q)) :=
  match s with
  | Absent => Ok dflt
  | Arr xs => Ok xs
  | Other false => Ok dflt
  | Other true => Throw TypeError
  end.

(** The block is written over its arithmetic: [add], [sub], [mul] and
    [div] are the [+], [-], [*] and [/] it is run with. *)
Section Arithmetic.

Variables add sub mul div : Q -> Q -> Q.

(** [xs.reduce((a, b) => a + (b || 0), 0)] *)
Definition sum_or_zero_with (xs : list (option Q)) : Q :=
  fold_left (fun a b => add a (or_zero b)) xs 0.

Definition irrigation_deficit_with (et0 precipWeek : Q) : Q :=
  Math_max 0 (sub (mul et0 7) precipWeek).

Definition irrigation_with (soilM et0 precipWeek : Q) : string * Urgency :=
  let deficit := irrigation_deficit_with et0 precipWeek in
  if (soilM <? 0.1) || (deficit >? 30) then
    ("Apply " ++ show (Math_round (add deficit 15))
       ++ " mm within 24h. Soil critically dry.", URGENT)%string
  else if (soilM <? 0.2) || (deficit >? 15) then
    ("Schedule " ++ show (Math_round (add deficit 8))
       ++ " mm irrigation within 3 days.", SOON)%string
  else
    ("Sufficient moisture. Next irrigation in ~"
       ++ show (Math_round (sub 7 (div precipWeek 3))) ++ " days.",
     IRRIG_OK)%string.

End Arithmetic.

(** The block at exact arithmetic. *)
Definition sum_or_zero (xs : list (option Q)) : Q :=
  sum_or_zero_with Qplus xs.

Definition irrigation_deficit (et0 precipWeek : Q) : Q :=
  irrigation_deficit_with Qminus Qmult et0 precipWeek.

Definition irrigation (soilM et0 precipWeek : Q) : string * Urgency :=
  irrigation_with Qplus Qminus Qmult Qdiv soilM et0 precipWeek.

(** ** Nutrient suggestion *)

Definition flat (b : bool) (p : Q) : Q := if b then p else 0.

Definition n_score (soilT soilM vpd temp : Q) : Z :=
  Math_round (Math_max 0 (Math_min 100
    (100 - flat (soilT >? 30) 20 - flat (soilM <? 0.15) 30
         - flat (vpd >? 2) 15 - flat (temp >? 35) 10))).

Definition p_score (soilT humidity precip : Q) : Z :=
  Math_round (Math_max 0 (Math_min 100
    (100 - flat (soilT <? 10) 25 - flat (humidity <? 40) 20
         - flat (precip >? 10) 10))).

Definition k_score (vpd humidity soilM : Q) : Z :=
  Math_round (Math_max 0 (Math_min 100
    (100 - flat (vpd >? 2.5) 25 - flat (humidity >? 85) 15
         - flat (soilM >? 0.4) 10))).

Definition urea_alert (nScore : Z) : string :=
  "Apply 30–60 kg/ha urea (N deficit: " ++ show (100 - nScore) ++ "%)".
Definition dap_alert (pScore : Z) : string :=
  "Apply DAP/SSP (P deficit: " ++ show (100 - pScore) ++ "%)".
Definition mop_alert (kScore : Z) : string :=
  "Apply MOP/SOP (K deficit: " ++ show (100 - kScore) ++ "%)".
Definition adequate_alert : string :=
  "Nutrient levels appear adequate for current conditions.".

(** [if (c) xs.push(x)] *)
Definition push_if {A : Type} (c : bool) (x : A) (xs : list A) : list A :=
  if c then xs ++ [x] else xs.

(** [if (!xs.length) xs.push(x)] *)
Definition push_if_empty {A : Type} (x : A) (xs : list A) : list A :=
  match xs with
  | [] => [x]
  | _ => xs
  end.

Definition nutrient_alerts (nScore pScore kScore : Z) : list string :=
  let alerts := [] in
  let alerts := push_if (nScore <? 60)%Z (urea_alert nScore) alerts in
  let alerts := push_if (pScore <? 60)%Z (dap_alert pScore) alerts in
  let alerts := push_if (kScore <? 60)%Z (mop_alert kScore) alerts in
  push_if_empty adequate_alert alerts.

(** ** Temperature alert *)

Inductive AlertLevel : Type :=
| ALERT_CRITICAL | ALERT_HIGH | ALERT_MODERATE | ALERT_OK.

(** The alert texts are templates around the temperatures they quote; a
    message is kept as its template and the quoted numbers. *)
Inductive TempMessage : Type :=
| SevereHeat (tMax : Q)        (* Severe heat (tMax C), risk of wilting *)
| HeatStress (tMax : Q)        (* Heat stress (tMax C), foliar cooling *)
| NearFrost (tMin : Q)         (* Near-frost risk (tMin C night) *)
| CoolNights (tMin : Q)        (* Cool nights (tMin C) *)
| InRange (tMin tMax : Q).     (* Temperature range tMin C - tMax C *)

Definition temperature_alert (tMax tMin : Q) : TempMessage * AlertLevel :=
  if tMax >? 42 then (SevereHeat tMax, ALERT_CRITICAL)
  else if tMax >? 36 then (HeatStress tMax, ALERT_HIGH)
  else if tMin <? 4 then (NearFrost tMin, ALERT_HIGH)
  else if tMin <? 10 then (CoolNights tMin, ALERT_MODERATE)
  else (InRange tMin tMax, ALERT_OK).

(** ** Seven-day health trend *)

Record TrendDay : Type := {
  day  : nat;
  h    : Z;
  tmax : option Q;   (* [None] is the dash shown for a missing maximum *)
  pr   : Q
}.

Fixpoint mapi_from {A B : Type} (f : A -> nat -> B) (i : nat) (l : list A)
    : list B :=
  match l with
  | [] => []
  | x :: l' => f x i :: mapi_from f (S i) l'
  end.

(** [l.map((x, i) => f(x, i))] *)
Definition mapi {A B : Type} (f : A -> nat -> B) (l : list A) : list B :=
  mapi_from f 0 l.

(** The day-local score.  [tmax] is an element of the forecast array, a
    number or [null]; in the comparisons and the subtraction it goes
    through [ToNumber]. *)
Definition trend_h (tmax : option Q) (sm uv pr : Q) : Z :=
  let t := ToNumber tmax in
  let h := 100 in
  let h := if t >? 38 then h - (t - 38) * 4 else h in
  let h := if t <? 18 then h - (18 - t) * 2 else h in
  let h := if sm <? 0.1 then h - 15 else h in
  let h := if uv >? 9 then h - 10 else h in
  let h := if pr >? 20 then h - 5 else h in
  Z.max 0 (Z.min 100 (Math_round h)).

Definition trend_day (daily : Daily) (soilM uvMax : Q)
    (tmax : option Q) (i : nat) : TrendDay :=
  let sm := at_index (soil_moisture_0_to_10cm_mean daily) i ?? soilM in
  let pr := at_index (precipitation_sum daily) i ?? 0 in
  let uv := at_index (uv_index_max daily) i ?? uvMax in
  {| day := i;
     h := trend_h tmax sm uv pr;
     tmax := option_map (toFixed 1) tmax;
     pr := toFixed 1 pr |}.

(** [Array(7).fill(temp)] *)
Definition seven (temp : Q) : list (option Q) := repeat (Some temp) 7.

(** ** Soil health *)

Inductive SoilStatus : Type := EXCELLENT | GOOD | FAIR | POOR.

Section Soil.

Variables soilM soilT humidity vpd : Q.

(** [parseFloat((soilM * 100).toFixed(1))] *)
Definition soilMoisturePct : Q := toFixed 1 (soilM * 100).

(** Moisture score: ideal 20-40%, drops off outside *)
Definition m_score : Q :=
  if soilMoisturePct <? 5 then 10
  else if soilMoisturePct <? 15 then 40
  else if soilMoisturePct <? 20 then 70
  else if soilMoisturePct >? 60 then 50
  else if soilMoisturePct >? 45 then 75
  else 100.

(** Soil temp score: ideal 15-28 C *)
Definition st_score : Q :=
  if soilT <? 5 then 20
  else if soilT <? 10 then 55
  else if soilT <? 15 then 80
  else if soilT >? 35 then 40
  else if soilT >? 28 then 75
  else 100.

(** Aeration: waterlogged or bone-dry both hurt structure *)
Definition aeration_score : Q :=
  if soilMoisturePct >? 50
  then Math_max 20 (100 - (soilMoisturePct - 50) * 3)
  else if soilMoisturePct <? 10 then 40 else 90.

(** Organic matter proxy: warm moist soil = active OM breakdown *)
Definition organic_score : Z :=
  Math_round (Math_max 20 (Math_min 100
    (50 + (if (soilMoisturePct >? 20) && (soilMoisturePct <? 45)
           then 25 else 0)
        + (if (soilT >? 12) && (soilT <? 30) then 20 else 0)
        + (if humidity >? 55 then 5 else -10)))).

(** Microbial activity: needs warmth + moisture, hurt by extremes *)
Definition microbial_score : Z :=
  Math_round (Math_max 10 (Math_min 100
    (100 - (if soilT <? 10 then 40 else if soilT >? 35 then 30 else 0)
         - (if soilMoisturePct <? 15 then 35
            else if soilMoisturePct >? 55 then 20 else 0)
         - (if vpd >? 3 then 15 else 0)))).

(** Structure: balance of moisture + temperature *)
Definition structure_score : Z :=
  Math_round (Math_max 20 (Math_min 100
    (m_score * 0.4 + aeration_score * 0.3 + st_score * 0.3))).

Definition soil_health : Z :=
  Math_round
    ((m_score + st_score + aeration_score + inject_Z organic_score
      + inject_Z microbial_score + inject_Z structure_score) / 6).

Definition soil_issues : list string :=
  let issues := [] in
  let issues := push_if (m_score <? 60)
    (if soilMoisturePct <? 20
     then "💧 Low soil moisture — risk of drought stress"%string
     else "🌊 Excess moisture — risk of root rot & anaerobic conditions"%string)
    issues in
  let issues := push_if (st_score <? 60)
    (if soilT <? 12
     then "❄️ Cold soil — slows nutrient uptake & microbial activity"%string
     else "🔥 Overly warm soil — accelerated evaporation & OM loss"%string)
    issues in
  let issues := push_if (aeration_score <? 60)
    "🪨 Poor aeration — consider drainage or tillage improvements"%string
    issues in
  let issues := push_if (inject_Z microbial_score <? 60)
    "🦠 Low microbial activity — apply organic amendments or compost"%string
    issues in
  let issues := push_if (inject_Z organic_score <? 60)
    "🌿 Low organic matter — add crop residues or green manure"%string
    issues in
  push_if_empty "✅ Soil conditions are healthy and well-balanced"%string issues.

End Soil.

Definition soil_status (soilHealth : Z) : SoilStatus :=
  if (soilHealth >=? 80)%Z then EXCELLENT
  else if (soilHealth >=? 60)%Z then GOOD
  else if (soilHealth >=? 40)%Z then FAIR
  else POOR.

Definition soil_status_color (soilHealth : Z) : string :=
  if (soilHealth >=? 80)%Z then "#00ff88"
  else if (soilHealth >=? 60)%Z then "#39ff14"
  else if (soilHealth >=? 40)%Z then "#ffd60a"
  else "#ff3864".

(** ** The derived metrics *)

(** The object [deriveMetrics] returns.  The fields the source prints with
    [toFixed] hold the printed number. *)
Record Metrics : Type := {
  health          : Z;
  stressPct       : Z;
  stressLevel     : StressLevel;
  stressColor     : string;
  temp            : Q;
  humidity        : Q;
  precip          : Q;
  soilT           : Q;
  soilM           : Q;
  vpd             : Q;
  uvMax           : Q;
  tMax            : Q;
  tMin            : Q;
  irrigRec        : string;
  irrigUrgency    : Urgency;
  nScore          : Z;
  pScore          : Z;
  kScore          : Z;
  nutrientAlerts  : list string;
  tempAlert       : TempMessage;
  tempAlertLevel  : AlertLevel;
  trend           : list TrendDay;
  et0             : Q;
  deficit         : Q;
  soilHealth      : Z;
  soilStatus      : SoilStatus;
  soilStatusColor : string;
  soilIssues      : list string;
  mScore          : Q;
  stScore         : Q;
  aerationScore   : Q;
  organicScore    : Z;
  microbialScore  : Z;
  structureScore  : Z
}.

(** The values read from the payload, each with its fallback. *)
Record Readings : Type := {
  r_temp     : Q;
  r_humidity : Q;
  r_precip   : Q;
  r_soilT    : Q;
  r_soilM    : Q;
  r_vpd      : Q;
  r_uvMax    : Q;
  r_et0      : Q;
  r_tMax     : Q;
  r_tMin     : Q
}.

Definition readings (cur : Current) (daily : Daily) (hourly : Hourly)
    : Readings :=
  let temp     := temperature_2m cur ?? 25 in
  let humidity := relative_humidity_2m cur ?? 50 in
  let precip   := precipitation cur ?? 0 in
  let soilT    := at_index (soil_temperature_0cm hourly) 0 ?? temp - 2 in
  let soilM    := at_index (soil_moisture_0_to_1cm hourly) 0 ?? 0.25 in
  let vpd      := at_index (vapour_pressure_deficit hourly) 0 ?? 1.0 in
  let uvMax    := at_index (uv_index_max daily) 0 ?? 5 in
  let et0      := at_index (et0_fao_evapotranspiration daily) 0 ?? 4 in
  let tMax     := at_index (temperature_2m_max daily) 0 ?? temp in
  let tMin     := at_index (temperature_2m_min daily) 0 ?? temp - 8 in
  Build_Readings temp humidity precip soilT soilM vpd uvMax et0 tMax tMin.

(** [deriveMetrics], the arithmetic of its irrigation block left open. *)
Section Derive.

Variables add sub mul div : Q -> Q -> Q.

Definition deriveMetrics_with (raw : option Raw) (cropType : string)
    : result Metrics :=
  match raw with
  | None => Throw TypeError
  | Some raw =>
    let cur    := section (wx raw) current no_current in
    let daily  := section (wx raw) daily no_daily in
    let hourly := section (wx raw) hourly no_hourly in
    let rd := readings cur daily hourly in
    let temp := r_temp rd in
    let humidity := r_humidity rd in
    let precip := r_precip rd in
    let soilT := r_soilT rd in
    let soilM := r_soilM rd in
    let vpd := r_vpd rd in
    let uvMax := r_uvMax rd in
    let health := health_score temp humidity vpd uvMax soilM in
    let et0 := r_et0 rd in
    weekly <- or_array (precipitation_sum daily) [] ;;
    let precipWeek := sum_or_zero_with add weekly in
    let deficit := irrigation_deficit_with sub mul et0 precipWeek in
    let irrig := irrigation_with add sub mul div soilM et0 precipWeek in
    let nScore := n_score soilT soilM vpd temp in
    let pScore := p_score soilT humidity precip in
    let kScore := k_score vpd humidity soilM in
    let tMax := r_tMax rd in
    let tMin := r_tMin rd in
    let alert := temperature_alert tMax tMin in
    maxima <- or_array (temperature_2m_max daily) (seven temp) ;;
    let trend := mapi (trend_day daily soilM uvMax) maxima in
    let soilHealth := soil_health soilM soilT humidity vpd in
    Ok {| health := health;
          stressPct := 100 - health;
          stressLevel := stress_level health;
          stressColor := stress_color health;
          temp := temp;
          humidity := humidity;
          precip := precip;
          soilT := soilT;
          soilM := toFixed 1 (soilMoisturePct soilM);
          vpd := toFixed 2 vpd;
          uvMax := uvMax;
          tMax := tMax;
          tMin := tMin;
          irrigRec := fst irrig;
          irrigUrgency := snd irrig;
          nScore := nScore;
          pScore := pScore;
          kScore := kScore;
          nutrientAlerts := nutrient_alerts nScore pScore kScore;
          tempAlert := fst alert;
          tempAlertLevel := snd alert;
          trend := trend;
          et0 := toFixed 1 et0;
          deficit := toFixed 1 deficit;
          soilHealth := soilHealth;
          soilStatus := soil_status soilHealth;
          soilStatusColor := soil_status_color soilHealth;
          soilIssues := soil_issues soilM soilT humidity vpd;
          mScore := m_score soilM;
          stScore := st_score soilT;
          aerationScore := aeration_score soilM;
          organicScore := organic_score soilM soilT humidity;
          microbialScore := microbial_score soilM soilT vpd;
          structureScore := structure_score soilM soilT |}
  end.

End Derive.

(** [deriveMetrics] at exact arithmetic. *)
Definition deriveMetrics (raw : option Raw) (cropType : string)
    : result Metrics :=
  deriveMetrics_with Qplus Qminus Qmult Qdiv raw cropType.

(** ** Well-formed payloads *)

(** A series property can take [reduce] / [map] after [|| fallback]: it is
    an array, or it is falsy and the fallback array takes its place. *)
Definition callable (s : series) : bool :=
  match s with
  | Other true => false
  | _ => true
  end.

(** The payload is present, and the two series the function folds and maps
    over are sequences (or absent).  Nothing is asked of their length or of
    any single number: a missing number is [None]. *)
Definition well_formed (raw : option Raw) : bool :=
  match raw with
  | None => false
  | Some raw =>
    let daily := section (wx raw) daily no_daily in
    callable (precipitation_sum daily) && callable (temperature_2m_max daily)
  end.

(** ** What a payload is read as *)

Definition payload_current (raw : Raw) : Current :=
  section (wx raw) current no_current.

Definition payload_daily (raw : Raw) : Daily :=
  section (wx raw) daily no_daily.

Definition payload_hourly (raw : Raw) : Hourly :=
  section (wx raw) hourly no_hourly.

(** The readings of a payload, after the fallbacks. *)
Definition observed (raw : Raw) : Readings :=
  readings (payload_current raw) (payload_daily raw) (payload_hourly raw).

(** The elements of a series that is folded or mapped over. *)
Definition elements (s : series) (dflt : list (option Q))
    : list (option Q) :=
  match s with
  | Arr xs => xs
  | _ => dflt
  end.

(** The week's precipitation: the sum of the daily sums, a [null] day
    counting for nothing. *)
Definition weekly_precipitation (raw : Raw) : Q :=
  sum_or_zero (elements (precipitation_sum (payload_daily raw)) []).

(** ** Sample payloads *)

(** A payload with all three sections present. *)
Definition payload (cur : Current) (dly : Daily) (hly : Hourly) : Raw :=
  {| wx := Some {| current := Some cur;
                   daily := Some dly;
                   hourly := Some hly |} |}.

(** A payload with no weather data at all: every reading is its fallback. *)
Definition bare_payload : Raw := {| wx := None |}.

(** Air at 38 C, humidity 50 %, VPD 1.0 kPa, UV index 5, soil moisture
    0.25; nothing else in the payload. *)
Definition boundary_38 : Raw :=
  payload
    {| temperature_2m := Some 38;
       relative_humidity_2m := Some 50;
       precipitation := None |}
    {| temperature_2m_max := Absent;
       temperature_2m_min := Absent;
       precipitation_sum := Absent;
       et0_fao_evapotranspiration := Absent;
       uv_index_max := Arr [Some 5];
       soil_moisture_0_to_10cm_mean := Absent |}
    {| soil_temperature_0cm := Absent;
       soil_moisture_0_to_1cm := Arr [Some 0.25];
       vapour_pressure_deficit := Arr [Some 1.0] |}.

(** A seven-day forecast whose maximum for today is [null]. *)
Definition null_maximum : Raw :=
  payload no_current
    {| temperature_2m_max :=
         Arr [None; Some 30; Some 31; Some 29; Some 28; Some 30; Some 31];
       temperature_2m_min := Absent;
       precipitation_sum := Absent;
       et0_fao_evapotranspiration := Absent;
       uv_index_max := Absent;
       soil_moisture_0_to_10cm_mean := Absent |}
    no_hourly.

(** A forecast of two days only. *)
Definition short_forecast : Raw :=
  payload no_current
    {| temperature_2m_max := Arr [Some 31; Some 29];
       temperature_2m_min := Arr [Some 19; Some 18];
       precipitation_sum := Arr [Some 0; Some 4];
       et0_fao_evapotranspiration := Arr [Some 5; Some 4];
       uv_index_max := Arr [Some 6; Some 8];
       soil_moisture_0_to_10cm_mean := Arr [Some 0.3; Some 0.3] |}
    no_hourly.

(** Soil moisture 0.05, ET0 10 mm a day, 30 mm of rain in the week: the
    deficit is 40 mm. *)
Definition dry_field : Raw :=
  {| wx := Some
       {| current := None;
          daily := Some
            {| temperature_2m_max := Absent;
               temperature_2m_min := Absent;
               precipitation_sum := Arr [Some 30];
               et0_fao_evapotranspiration := Arr [Some 10];
               uv_index_max := Absent;
               soil_moisture_0_to_10cm_mean := Absent |};
          hourly := Some
            {| soil_temperature_0cm := Absent;
               soil_moisture_0_to_1cm := Arr [Some 0.05];
               vapour_pressure_deficit := Absent |} |} |}.

(** Today's forecast maximum is 43 C, over a cold night and humid air. *)
Definition heat_wave : Raw :=
  {| wx := Some
       {| current := Some {| temperature_2m := Some 20;
                             relative_humidity_2m := Some 95;
                             precipitation := Some 12 |};
          daily := Some
            {| temperature_2m_max := Arr [Some 43; Some 30];
               temperature_2m_min := Arr [Some 2; None];
               precipitation_sum := Absent;
               et0_fao_evapotranspiration := Absent;
               uv_index_max := Absent;
               soil_moisture_0_to_10cm_mean := Absent |};
          hourly := None |} |}.

(** Dry soil (0.05) under dry air (VPD 3 kPa). *)
Definition parched_field : Raw :=
  {| wx := Some
       {| current := None;
          daily := None;
          hourly := Some
            {| soil_temperature_0cm := Absent;
               soil_moisture_0_to_1cm := Arr [Some 0.05];
               vapour_pressure_deficit := Arr [Some 3] |} |} |}.

(** A week of extremes: frost, heat, a missing maximum, storms, with
    waterlogged soil. *)
Definition rough_week : Raw :=
  {| wx := Some
       {| current := Some {| temperature_2m := Some (-5);
                             relative_humidity_2m := Some 10;
                             precipitation := Some 40 |};
          daily := Some
            {| temperature_2m_max :=
                 Arr [Some (-40); Some 70; None; Some 25; Some 39.5;
                      Some 17; Some 0];
               temperature_2m_min := Absent;
               precipitation_sum :=
                 Arr [Some 50; None; Some 0; Some 21; Some 3; None; Some 9];
               et0_fao_evapotranspiration := Arr [Some 6];
               uv_index_max := Arr [Some 11; Some 12];
               soil_moisture_0_to_10cm_mean := Arr [Some 0.02; Some 0.9] |};
          hourly := Some
            {| soil_temperature_0cm := Arr [Some 40];
               soil_moisture_0_to_1cm := Arr [Some 0.95];
               vapour_pressure_deficit := Arr [Some 5] |} |} |}.

(** Well-watered soil after 30 mm of rain in the week. *)
Definition rainy_week : Raw :=
  {| wx := Some
       {| current := None;
          daily := Some
            {| temperature_2m_max := Absent;
               temperature_2m_min := Absent;
               precipitation_sum := Arr [Some 12; Some 18];
               et0_fao_evapotranspiration := Absent;
               uv_index_max := Absent;
               soil_moisture_0_to_10cm_mean := Absent |};
          hourly := None |} |}.

(** ** Field centroid *)

(** A GeoJSON polygon feature as [geojsonCentroid] reads it: the rings of
    [gj.geometry.coordinates], a position being the pair of its longitude
    [c[0]] and latitude [c[1]]. *)
Record Geometry : Type := { coordinates : option (list (list (Q * Q))) }.

Record Feature : Type := { geometry : option Geometry }.

Record LatLng : Type := { lat : Q; lng : Q }.

(** [gj?.geometry?.coordinates?.[0] || []] *)
Definition outer_ring (gj : option Feature) : list (Q * Q) :=
  match gj with
  | Some f =>
    match geometry f with
    | Some g =>
      match coordinates g with
      | Some rings => nth 0 rings []
      | None => []
      end
    | None => []
    end
  | None => []
  end.

(** [coords.reduce((s, c) => s + c[k], 0)] *)
Definition sum_of (f : Q * Q -> Q) (coords : list (Q * Q)) : Q :=
  fold_left (fun s c => s + f c) coords 0.

(** The mean of the positions of the first ring, sums and quotients
    taken exactly; [null] when there is no position. *)
Definition geojsonCentroid (gj : option Feature) : option LatLng :=
  let coords := outer_ring gj in
  match List.length coords with
  | O => None
  | n =>
    let lng := sum_of fst coords / inject_Z (Z.of_nat n) in
    let lat := sum_of snd coords / inject_Z (Z.of_nat n) in
    Some {| lat := lat; lng := lng |}
  end.

(** ** Health trend chart *)

Definition chart_W : Q := 560.
Definition chart_H : Q := 120.
Definition chart_PAD : Q := 32.
Definition chart_BAR_W : Q := 28.

Definition chart_days : list string :=
  ["Today"; "D+1"; "D+2"; "D+3"; "D+4"; "D+5"; "D+6"]%string.

(** One bar of the chart: the rectangle, its colour, the value printed
    above it ([label_y] is where), and the day and maximum printed below.
    The shadow drawn one unit right and two down of each bar and the
    colour gradient are not kept. *)
Record Bar : Type := {
  bar_x      : Q;
  bar_y      : Q;
  bar_height : Q;
  bar_col    : string;
  bar_value  : Z;
  label_y    : Q;
  bar_day    : option string;
  bar_tmax   : option Q
}.

(** The height at which the grid line of value [v] is drawn. *)
Definition grid_y (v : Q) : Q := chart_H - v * (chart_H - 10) / 100.

Definition trend_bar (d : TrendDay) (i : nat) : Bar :=
  let x := chart_PAD
           + inject_Z (Z.of_nat i) * ((chart_W - chart_PAD * 2) / 7) + 6 in
  let barH := Math_max 4 (inject_Z (h d) * (chart_H - 10) / 100) in
  let y := chart_H - barH in
  let col := if (h d >=? 75)%Z then "#00ff88"%string
             else if (h d >=? 50)%Z then "#ffd60a"%string
             else if (h d >=? 30)%Z then "#ff6b2b"%string
             else "#ff3864"%string in
  {| bar_x := x;
     bar_y := y;
     bar_height := barH;
     bar_col := col;
     bar_value := h d;
     label_y := y - 5;
     bar_day := nth_error chart_days i;
     bar_tmax := tmax d |}.

(** What the chart draws: the grid lines and the bars; [None] is the
    [null] returned for an empty trend. *)
Record Chart : Type := {
  grid : list Q;
  bars : list Bar
}.

Definition HealthTrendChart (trend : list TrendDay) : option Chart :=
  match List.length trend with
  | O => None
  | _ => Some {| grid := map grid_y [25; 50; 75; 100];
                 bars := mapi trend_bar trend |}
  end.

(** ** Running the analysis of a drawn field *)

(** What [fetchFarmAnalysis] comes to: the promise is rejected, or it
    resolves to an object whose [wx] is the parsed weather reply. *)
Inductive fetched : Type :=
| Rejected
| Resolved (w : option Wx).

Record PathStyle : Type := {
  color       : string;
  fillColor   : string;
  fillOpacity : Q;
  weight      : Q
}.

(** The calls [runAnalysis] makes on the component and the map, in
    order. *)
Inductive effect : Type :=
| SetAnalyzing (b : bool)
| SetMetrics (m : option Metrics)
| FetchFarmAnalysis (lat lng : Q)
| SetStyle (s : PathStyle).

(** One run, from the call to the end of its [finally].  [fetch] says what
    the request comes to; [polygon] tells whether [polygonRef.current]
    holds a layer when the metrics arrive. *)
Definition runAnalysis (gj : option Feature) (fetch : Q -> Q -> fetched)
    (form_crop : string) (polygon : bool) : list effect :=
  match geojsonCentroid gj with
  | None => []
  | Some c =>
    [SetAnalyzing true; SetMetrics None; FetchFarmAnalysis (lat c) (lng c)]
    ++ match fetch (lat c) (lng c) with
       | Rejected => [SetMetrics None]
       | Resolved w =>
         match deriveMetrics (Some {| wx := w |}) form_crop with
         | Ok m =>
           SetMetrics (Some m)
           :: (if polygon
               then [SetStyle {| color := stressColor m;
                                 fillColor := stressColor m;
                                 fillOpacity := 0.22;
                                 weight := 2 |}]
               else [])
         | Throw _ => [SetMetrics None]
         end
       end
    ++ [SetAnalyzing false]
  end.

(** ** More sample payloads *)

(** A square field, its ring closed on the first corner. *)
Definition square_field : option Feature :=
  Some {| geometry := Some {| coordinates := Some
    [[(73, 18); (74, 18); (74, 19); (73, 19); (73, 18)]] |} |}.

(** A comfortable day: 25 C, 60 % humidity, VPD 1.2, UV 6, soil moisture
    0.28 at 22 C, with a mild week ahead. *)
Definition mild_week : Raw :=
  payload
    {| temperature_2m := Some 25;
       relative_humidity_2m := Some 60;
       precipitation := Some 0 |}
    {| temperature_2m_max :=
         Arr [Some 27; Some 28; Some 26; Some 29; Some 30; Some 28; Some 27];
       temperature_2m_min :=
         Arr [Some 17; Some 18; Some 16; Some 18; Some 19; Some 18; Some 17];
       precipitation_sum :=
         Arr [Some 0; Some 2; Some 5; Some 0; Some 0; Some 1; Some 0];
       et0_fao_evapotranspiration := Arr [Some 4.5];
       uv_index_max := Arr [Some 6; Some 6; Some 5];
       soil_moisture_0_to_10cm_mean := Arr [Some 0.28; Some 0.27] |}
    {| soil_temperature_0cm := Arr [Some 22];
       soil_moisture_0_to_1cm := Arr [Some 0.28];
       vapour_pressure_deficit := Arr [Some 1.2] |}.

(** Humid, rainy air over warm soil, with dry-air VPD: nothing about the
    air temperature, the soil moisture or the days ahead. *)
Definition muggy_day : Raw :=
  {| wx := Some
       {| current := Some {| temperature_2m := None;
                             relative_humidity_2m := Some 95;
                             precipitation := Some 12 |};
          daily := None;
          hourly := Some
            {| soil_temperature_0cm := Arr [Some 35];
               soil_moisture_0_to_1cm := Absent;
               vapour_pressure_deficit := Arr [Some 3] |} |} |}.

(** ET0 written 4.4 and one day of rain written 0.8, as binary64 holds
    them: seven times the one less the other comes to just above 30. *)
Definition tie_week : Raw :=
  {| wx := Some
       {| current := None;
          daily := Some
            {| temperature_2m_max := Absent;
               temperature_2m_min := Absent;
               precipitation_sum := Arr [Some (binary64 0.8)];
               et0_fao_evapotranspiration := Arr [Some (binary64 4.4)];
               uv_index_max := Absent;
               soil_moisture_0_to_10cm_mean := Absent |};
          hourly := None |} |}.

(** ** Facts about the JavaScript operations *)

Lemma ltb_lt (x y : Q) : (x <? y) = true <-> x < y.
Proof.
  unfold ltb. rewrite negb_true_iff, <- not_true_iff_false, Qle_bool_iff.
  split; [apply Qnot_le_lt | apply Qlt_not_le].
Qed.

Lemma ltb_ge (x y : Q) : (x <? y) = false <-> y <= x.
Proof.
  unfold ltb. rewrite negb_false_iff. apply Qle_bool_iff.
Qed.

Lemma gtb_gt (x y : Q) : (x >? y) = true <-> y < x.
Proof. apply ltb_lt. Qed.

Lemma gtb_le (x y : Q) : (x >? y) = false <-> x <= y.
Proof. apply ltb_ge. Qed.

Lemma ltb_cases (x y : Q) :
  (x < y /\ (x <? y) = true) \/ (y <= x /\ (x <? y) = false).
Proof.
  destruct (x <? y) eqn:E; [left | right]; split; trivial.
  - now apply ltb_lt.
  - now apply ltb_ge.
Qed.

(** Decide every comparison in the goal, keeping the inequality. *)
Ltac by_cases :=
  repeat match goal with
  | |- context [ltb ?x ?y] =>
      let H := fresh "C" in
      let E := fresh "E" in
      destruct (ltb_cases x y) as [[H E] | [H E]]; rewrite E in *; clear E
  | |- context [gtb ?x ?y] => unfold gtb
  end.

Lemma Math_clamp (lo hi x : Q) :
  lo <= hi -> lo <= Math_max lo (Math_min hi x) <= hi.
Proof. intros. unfold Math_max, Math_min. by_cases; lra. Qed.

Lemma Math_round_between (a b : Z) (x : Q) :
  inject_Z a <= x <= inject_Z b -> (a <= Math_round x <= b)%Z.
Proof.
  intros [Ha Hb]. unfold Math_round. split.
  - rewrite <- (Qfloor_Z a). apply Qfloor_resp_le. lra.
  - apply Z.lt_succ_r. rewrite Zlt_Qlt.
    apply Qle_lt_trans with (x + 0.5); [apply Qfloor_le |].
    unfold Z.succ. rewrite inject_Z_plus. change (inject_Z 1) with 1. lra.
Qed.

Lemma Math_round_comp (x y : Q) : x == y -> Math_round x = Math_round y.
Proof. intros E. unfold Math_round. now rewrite E. Qed.

Lemma Math_round_Z (z : Z) : Math_round (inject_Z z) = z.
Proof.
  unfold Math_round. apply Z.le_antisymm.
  - apply Z.lt_succ_r. rewrite Zlt_Qlt.
    apply Qle_lt_trans with (inject_Z z + 0.5); [apply Qfloor_le |].
    unfold Z.succ. rewrite inject_Z_plus. change (inject_Z 1) with 1. lra.
  - rewrite <- (Qfloor_Z z) at 1. apply Qfloor_resp_le. lra.
Qed.

Lemma or_array_callable (s : series) (d : list (option Q)) :
  callable s = true -> exists xs, or_array s d = Ok xs.
Proof.
  destruct s as [| xs | []]; simpl; intros H; try discriminate; eauto.
Qed.

(** Run [deriveMetrics] on a well-formed payload: both array calls go
    through, and the returned object is in the goal. *)
Ltac derive_run raw H :=
  destruct raw as [raw |]; [| discriminate H];
  unfold well_formed in H; apply andb_prop in H;
  let Hw := fresh "Hw" in
  let Hm := fresh "Hm" in
  let ws := fresh "weekly" in
  let ms := fresh "maxima" in
  destruct H as [Hw Hm];
  unfold deriveMetrics, deriveMetrics_with;
  match goal with
  | |- context [or_array ?s ?d] =>
      destruct (or_array_callable s d Hw) as [ws ->]
  end;
  cbn [bind];
  match goal with
  | |- context [or_array ?s ?d] =>
      destruct (or_array_callable s d Hm) as [ms ->]
  end;
  cbn [bind].

(** A well-formed payload is derived without an exception. *)
Lemma deriveMetrics_total (raw : option Raw) (cropType : string) :
  well_formed raw = true -> exists m, deriveMetrics raw cropType = Ok m.
Proof.
  intros H. derive_run raw H. eexists. reflexivity.
Qed.

(** The function raises only on a payload that is not well formed. *)
Lemma deriveMetrics_throws (raw : option Raw) (cropType : string) (e : exn) :
  deriveMetrics raw cropType = Throw e -> well_formed raw = false.
Proof.
  intros H. destruct (well_formed raw) eqn:W; trivial.
  destruct (deriveMetrics_total raw cropType W) as [m E]. congruence.
Qed.

Lemma or_array_elements (s : series) (d xs : list (option Q)) :
  or_array s d = Ok xs -> xs = elements s d.
Proof.
  destruct s as [| ys | []]; simpl; intros E;
    try discriminate; now injection E.
Qed.

(** What the returned object holds, block by block, in terms of the
    readings of the payload. *)
Lemma deriveMetrics_fields (raw : Raw) (cropType : string) (m : Metrics) :
  deriveMetrics (Some raw) cropType = Ok m ->
  let rd := observed raw in
  let dly := payload_daily raw in
  health m = health_score (r_temp rd) (r_humidity rd) (r_vpd rd)
               (r_uvMax rd) (r_soilM rd)
  /\ stressPct m = (100 - health m)%Z
  /\ (irrigRec m, irrigUrgency m) =
       irrigation (r_soilM rd) (r_et0 rd) (weekly_precipitation raw)
  /\ nScore m = n_score (r_soilT rd) (r_soilM rd) (r_vpd rd) (r_temp rd)
  /\ pScore m = p_score (r_soilT rd) (r_humidity rd) (r_precip rd)
  /\ kScore m = k_score (r_vpd rd) (r_humidity rd) (r_soilM rd)
  /\ nutrientAlerts m = nutrient_alerts (nScore m) (pScore m) (kScore m)
  /\ (tempAlert m, tempAlertLevel m) =
       temperature_alert (r_tMax rd) (r_tMin rd)
  /\ trend m = mapi (trend_day dly (r_soilM rd) (r_uvMax rd))
                 (elements (temperature_2m_max dly) (seven (r_temp rd)))
  /\ mScore m = m_score (r_soilM rd)
  /\ stScore m = st_score (r_soilT rd)
  /\ aerationScore m = aeration_score (r_soilM rd)
  /\ organicScore m = organic_score (r_soilM rd) (r_soilT rd) (r_humidity rd)
  /\ microbialScore m = microbial_score (r_soilM rd) (r_soilT rd) (r_vpd rd)
  /\ structureScore m = structure_score (r_soilM rd) (r_soilT rd)
  /\ soilHealth m = soil_health (r_soilM rd) (r_soilT rd) (r_humidity rd)
                      (r_vpd rd)
  /\ soilStatus m = soil_status (soilHealth m).
Proof.
  intros E rd dly. unfold deriveMetrics, deriveMetrics_with in E.
  destruct (or_array (precipitation_sum (section (wx raw) daily no_daily)) [])
    as [week |] eqn:Ew; [| discriminate].
  apply or_array_elements in Ew. cbn [bind] in E.
  destruct (or_array (temperature_2m_max (section (wx raw) daily no_daily)) _)
    as [maxima |] eqn:Em; [| discriminate].
  apply or_array_elements in Em.
  cbn [bind] in E. injection E as <-. subst week maxima.
  cbn [health stressPct stressLevel irrigRec irrigUrgency nScore pScore
       kScore nutrientAlerts tempAlert tempAlertLevel trend soilHealth
       soilStatus mScore stScore aerationScore organicScore microbialScore
       structureScore].
  repeat split; try reflexivity.
  - symmetry. apply surjective_pairing.
  - symmetry. apply surjective_pairing.
Qed.

(** ** Health score *)

(** C1. For every well-formed payload the function returns, the health
    score is an integer between 0 and 100, and the stress percentage is
    exactly 100 minus the health score. *)
Theorem health_score_range (raw : Raw) (cropType : string) :
  well_formed (Some raw) = true ->
  exists m, deriveMetrics (Some raw) cropType = Ok m
    /\ (0 <= health m <= 100)%Z
    /\ stressPct m = (100 - health m)%Z.
Proof.
  intros W.
  destruct (deriveMetrics_total (Some raw) cropType W) as [m E].
  exists m. split; [exact E |].
  destruct (deriveMetrics_fields raw cropType m E) as (Hh & Hs & _).
  split; [| exact Hs]. rewrite Hh. unfold health_score. lia.
Qed.

Lemma health_score_range_witness :
  well_formed (Some rough_week) = true
  /\ exists m, deriveMetrics (Some rough_week) "Maize" = Ok m
       /\ (0 <= health m <= 100)%Z
       /\ stressPct m = (100 - health m)%Z.
Proof.
  split; [reflexivity |].
  apply (health_score_range rough_week "Maize"). reflexivity.
Defined.

Lemma temp_penalty_band (t h : Q) :
  32 < t <= 38 -> temp_penalty t h == h - (t - 32) * 2.
Proof.
  intros [Hlo Hhi]. unfold temp_penalty, gtb.
  by_cases; try lra; reflexivity.
Qed.

Lemma temp_penalty_above (t h : Q) :
  38 < t -> temp_penalty t h == h - (t - 38) * 4.
Proof.
  intros Hlo. unfold temp_penalty, gtb.
  by_cases; try lra; reflexivity.
Qed.

(** C2, as stated: health score 100 at 38 C.  The function gives 88. *)
Lemma boundary_38_health_not_100 :
  ~ exists m, deriveMetrics (Some boundary_38) "Wheat" = Ok m /\ health m = 100%Z.
Proof.
  intros [m [E H]]. vm_compute in E. injection E as <-. discriminate H.
Qed.

(** C2, amended. At 38 C, humidity 50, VPD 1.0, UV 5 and soil moisture
    0.25 the health score is 88: the above-38 penalty needs a temperature
    strictly above 38 and is not applied, but 38 lies in the band above 32,
    whose penalty of 2 per degree above 32 takes 12 off. *)
Theorem boundary_38_health_88 (cropType : string) :
  (exists m, deriveMetrics (Some boundary_38) cropType = Ok m /\ health m = 88%Z)
  /\ (forall h, temp_penalty 38 h == h - 12)
  /\ (forall t h, 38 < t -> temp_penalty t h == h - (t - 38) * 4).
Proof.
  split; [| split].
  - eexists. split; [reflexivity |]. vm_compute. reflexivity.
  - intros h. rewrite temp_penalty_band by lra. ring.
  - apply temp_penalty_above.
Qed.

Lemma boundary_38_health_88_witness :
  38 < 45 /\ temp_penalty 45 100 == 100 - (45 - 38) * 4.
Proof.
  split; [reflexivity |].
  apply (proj2 (proj2 (boundary_38_health_88 "Wheat"))). reflexivity.
Defined.

(** ** Missing data and failure *)

(** Absent numbers take the fallbacks written in the function: 25 C, 50 %,
    no rain, soil two degrees under the air, soil moisture 0.25, VPD 1.0,
    UV 5, ET0 4 mm. *)
Lemma readings_fallbacks :
  let rd := readings no_current no_daily no_hourly in
  r_temp rd = 25 /\ r_humidity rd = 50 /\ r_precip rd = 0
  /\ r_soilT rd = 25 - 2 /\ r_soilM rd = 0.25 /\ r_vpd rd = 1.0
  /\ r_uvMax rd = 5 /\ r_et0 rd = 4
  /\ r_tMax rd = 25 /\ r_tMin rd = 25 - 8.
Proof. cbv zeta. repeat split. Qed.

Lemma callable_false (s : series) : callable s = false -> s = Other true.
Proof. destruct s as [| xs | []]; simpl; congruence. Qed.

Lemma callable_true (s : series) : s <> Other true -> callable s = true.
Proof. destruct s as [| xs | []]; simpl; congruence. Qed.

(** A forecast that is not seven days long is derived all the same, one
    trend entry per day given. *)
Lemma short_forecast_accepted (cropType : string) :
  exists m, deriveMetrics (Some short_forecast) cropType = Ok m
    /\ map h (trend m) = [100; 100]%Z.
Proof. eexists. split; [reflexivity |]. vm_compute. reflexivity. Qed.

(** A [null] daily maximum is not replaced by a fallback in the trend: it
    is compared and subtracted as 0 C, enters the below-18 branch and costs
    the day 36 points, while the same day is shown with a dash for its
    missing maximum.  With no forecast at all the day scores 100. *)
Lemma null_maximum_is_penalised (cropType : string) :
  (exists m, deriveMetrics (Some null_maximum) cropType = Ok m
     /\ map h (trend m) = [64; 100; 100; 100; 100; 100; 100]%Z
     /\ nth_error (map tmax (trend m)) 0 = Some None)
  /\ (exists m, deriveMetrics (Some bare_payload) cropType = Ok m
        /\ map h (trend m) = [100; 100; 100; 100; 100; 100; 100]%Z).
Proof.
  split; eexists; (split; [reflexivity |]); vm_compute; auto.
Qed.

(** C3, as stated: every absent number takes a fixed default.  An absent
    soil temperature has none: it is read as the air temperature less 2,
    23 C over the default air and 36 C over air at 38 C. *)
Lemma soil_temperature_default_not_fixed :
  ~ exists d : Q, forall raw : Raw,
      at_index (soil_temperature_0cm (payload_hourly raw)) 0 = None ->
      r_soilT (observed raw) == d.
Proof.
  intros [d H].
  pose proof (H bare_payload eq_refl) as H1.
  pose proof (H boundary_38 eq_refl) as H2.
  rewrite <- H2 in H1. vm_compute in H1. discriminate H1.
Qed.

(** C3, amended. The function raises only when the payload is missing
    or when the precipitation or the daily-maximum series is a value that
    is not a sequence.  Otherwise it returns, whatever numbers are absent:
    an absent air temperature, soil moisture or VPD is read as 25 C, 0.25
    and 1.0, an absent soil temperature as the air temperature less 2, and
    the health and nutrient scores are computed from the readings so
    completed. *)
Theorem missing_data_policy (raw : option Raw) (cropType : string) :
  (forall e, deriveMetrics raw cropType = Throw e ->
     raw = None
     \/ exists r, raw = Some r
          /\ (precipitation_sum (payload_daily r) = Other true
              \/ temperature_2m_max (payload_daily r) = Other true))
  /\ (forall r, raw = Some r ->
      precipitation_sum (payload_daily r) <> Other true ->
      temperature_2m_max (payload_daily r) <> Other true ->
      exists m, deriveMetrics raw cropType = Ok m /\
        let rd := observed r in
        (temperature_2m (payload_current r) = None -> r_temp rd = 25)
        /\ (at_index (soil_moisture_0_to_1cm (payload_hourly r)) 0 = None ->
            r_soilM rd = 0.25)
        /\ (at_index (vapour_pressure_deficit (payload_hourly r)) 0 = None ->
            r_vpd rd = 1.0)
        /\ (at_index (soil_temperature_0cm (payload_hourly r)) 0 = None ->
            r_soilT rd = r_temp rd - 2)
        /\ health m = health_score (r_temp rd) (r_humidity rd) (r_vpd rd)
                        (r_uvMax rd) (r_soilM rd)
        /\ nScore m = n_score (r_soilT rd) (r_soilM rd) (r_vpd rd) (r_temp rd)
        /\ pScore m = p_score (r_soilT rd) (r_humidity rd) (r_precip rd)
        /\ kScore m = k_score (r_vpd rd) (r_humidity rd) (r_soilM rd)).
Proof.
  split.
  - intros e T. apply deriveMetrics_throws in T.
    destruct raw as [r |]; [right | now left].
    exists r. split; [reflexivity |].
    unfold well_formed in T. fold (payload_daily r) in T.
    apply andb_false_iff in T.
    destruct T as [T | T]; apply callable_false in T; auto.
  - intros r -> Hp Ht.
    assert (W : well_formed (Some r) = true).
    { unfold well_formed. fold (payload_daily r).
      now rewrite (callable_true _ Hp), (callable_true _ Ht). }
    destruct (deriveMetrics_total (Some r) cropType W) as [m E].
    exists m. split; [exact E |]. intros rd.
    destruct (deriveMetrics_fields r cropType m E)
      as (Hh & _ & _ & Hn & Hpp & Hk & _).
    unfold rd, observed, readings. cbn [r_temp r_soilM r_vpd r_soilT].
    repeat split; try (intros ->; reflexivity); assumption.
Qed.

Lemma missing_data_policy_witness :
  precipitation_sum (payload_daily short_forecast) <> Other true
  /\ temperature_2m_max (payload_daily short_forecast) <> Other true
  /\ exists m, deriveMetrics (Some short_forecast) "Wheat" = Ok m
       /\ r_temp (observed short_forecast) = 25
       /\ r_soilT (observed short_forecast) = 25 - 2.
Proof.
  split; [discriminate |]. split; [discriminate |].
  destruct (proj2 (missing_data_policy (Some short_forecast) "Wheat")
              short_forecast eq_refl)
    as [m [E (Ht & _ & _ & Hs & _)]]; try discriminate.
  exists m. split; [exact E |].
  split; [apply Ht; reflexivity |].
  rewrite Hs by reflexivity. rewrite Ht by reflexivity. reflexivity.
Defined.

(** ** Irrigation recommendation *)

Lemma Math_max_Qmax (a b : Q) : Math_max a b == Qmax a b.
Proof.
  unfold Math_max. by_cases.
  - symmetry. apply Q.max_r. lra.
  - symmetry. apply Q.max_l. lra.
Qed.

(** [Math.max] picks the very number [Qmax] picks. *)
Lemma Math_max_is_Qmax (a b : Q) : Math_max a b = Qmax a b.
Proof.
  unfold Math_max, Qmax, GenericMinMax.gmax.
  destruct (Qcompare a b) eqn:E.
  - apply Qeq_alt in E.
    destruct (ltb_cases a b) as [[C ->] | [C ->]]; [lra | reflexivity].
  - apply Qlt_alt in E.
    destruct (ltb_cases a b) as [[C ->] | [C ->]]; [reflexivity | lra].
  - apply Qgt_alt in E.
    destruct (ltb_cases a b) as [[C ->] | [C ->]]; [lra | reflexivity].
Qed.

Section IrrigationRule.

Variables add sub mul div : Q -> Q -> Q.

Lemma irrigation_with_urgent (soilM et0 precipWeek : Q) :
  let deficit := Qmax 0 (sub (mul et0 7) precipWeek) in
  soilM < 0.1 \/ 30 < deficit ->
  irrigation_with add sub mul div soilM et0 precipWeek =
    ("Apply " ++ show (Math_round (add deficit 15))
       ++ " mm within 24h. Soil critically dry.", URGENT)%string.
Proof.
  intros deficit H. unfold irrigation_with, irrigation_deficit_with.
  rewrite Math_max_is_Qmax. fold deficit.
  replace ((soilM <? 0.1) || (deficit >? 30)) with true; [reflexivity |].
  symmetry. apply orb_true_iff.
  destruct H; [left; now apply ltb_lt | right; now apply gtb_gt].
Qed.

Lemma irrigation_with_soon (soilM et0 precipWeek : Q) :
  let deficit := Qmax 0 (sub (mul et0 7) precipWeek) in
  ~ (soilM < 0.1 \/ 30 < deficit) ->
  soilM < 0.2 \/ 15 < deficit ->
  irrigation_with add sub mul div soilM et0 precipWeek =
    ("Schedule " ++ show (Math_round (add deficit 8))
       ++ " mm irrigation within 3 days.", SOON)%string.
Proof.
  intros deficit N H. unfold irrigation_with, irrigation_deficit_with.
  rewrite Math_max_is_Qmax. fold deficit.
  replace ((soilM <? 0.1) || (deficit >? 30)) with false.
  replace ((soilM <? 0.2) || (deficit >? 15)) with true; [reflexivity |].
  - symmetry. apply orb_true_iff.
    destruct H; [left; now apply ltb_lt | right; now apply gtb_gt].
  - symmetry. apply orb_false_iff. split.
    + apply ltb_ge. apply Qnot_lt_le. tauto.
    + apply gtb_le. apply Qnot_lt_le. tauto.
Qed.

Lemma irrigation_with_ok (soilM et0 precipWeek : Q) :
  let deficit := Qmax 0 (sub (mul et0 7) precipWeek) in
  ~ (soilM < 0.1 \/ 30 < deficit) ->
  ~ (soilM < 0.2 \/ 15 < deficit) ->
  irrigation_with add sub mul div soilM et0 precipWeek =
    ("Sufficient moisture. Next irrigation in ~"
       ++ show (Math_round (sub 7 (div precipWeek 3))) ++ " days.",
     IRRIG_OK)%string.
Proof.
  intros deficit N1 N2. unfold irrigation_with, irrigation_deficit_with.
  rewrite Math_max_is_Qmax. fold deficit.
  replace ((soilM <? 0.1) || (deficit >? 30)) with false.
  replace ((soilM <? 0.2) || (deficit >? 15)) with false; [reflexivity |].
  - symmetry. apply orb_false_iff. split.
    + apply ltb_ge. apply Qnot_lt_le. tauto.
    + apply gtb_le. apply Qnot_lt_le. tauto.
  - symmetry. apply orb_false_iff. split.
    + apply ltb_ge. apply Qnot_lt_le. tauto.
    + apply gtb_le. apply Qnot_lt_le. tauto.
Qed.

(** A well-formed payload is derived whatever the arithmetic, and the
    advice returned is the irrigation block run on its readings and on
    the week's precipitation, summed with that arithmetic. *)
Lemma deriveMetrics_with_irrigation (raw : Raw) (cropType : string) :
  well_formed (Some raw) = true ->
  exists m, deriveMetrics_with add sub mul div (Some raw) cropType = Ok m
    /\ (irrigRec m, irrigUrgency m) =
         irrigation_with add sub mul div
           (r_soilM (observed raw)) (r_et0 (observed raw))
           (fold_left (fun a b => add a (b ?? 0))
              (elements (precipitation_sum (payload_daily raw)) []) 0).
Proof.
  intros W. unfold well_formed in W. apply andb_prop in W.
  destruct W as [Wp Wm]. unfold deriveMetrics_with.
  destruct (or_array_callable
              (precipitation_sum (section (wx raw) daily no_daily)) [] Wp)
    as [week Ew].
  rewrite Ew. cbn [bind]. apply or_array_elements in Ew.
  match goal with
  | |- context [or_array ?s ?d] =>
      destruct (or_array_callable s d Wm) as [maxima ->]
  end.
  cbn [bind]. eexists. split; [reflexivity |].
  cbn [irrigRec irrigUrgency]. subst week.
  symmetry. apply surjective_pairing.
Qed.

(** C4. Whatever arithmetic the block is run with ([add], [sub], [mul],
    [div]: binary64's as well as the exact one), with
    [deficit = max(0, et0 * 7 - weekly)], [weekly] the sum of the daily
    precipitation sums: the advice is URGENT, [round(deficit + 15)] mm,
    when soil moisture is below 0.10 or the deficit above 30; otherwise
    SOON, [round(deficit + 8)] mm, when soil moisture is below 0.20 or the
    deficit above 15; otherwise OK, next irrigation in
    [round(7 - weekly / 3)] days.  Soil moisture 0.05 (any value below
    0.10) with [et0 * 7 - weekly] at 40 is URGENT and, 40 + 15 being 55,
    asks for 55 mm. *)
Theorem irrigation_rule (raw : Raw) (cropType : string) :
  well_formed (Some raw) = true ->
  exists m, deriveMetrics_with add sub mul div (Some raw) cropType = Ok m /\
    let soilM := r_soilM (observed raw) in
    let et0 := r_et0 (observed raw) in
    let weekly :=
      fold_left (fun a b => add a (b ?? 0))
        (elements (precipitation_sum (payload_daily raw)) []) 0 in
    let deficit := Qmax 0 (sub (mul et0 7) weekly) in
    let urgent := soilM < 0.1 \/ 30 < deficit in
    let soon := soilM < 0.2 \/ 15 < deficit in
    (urgent ->
       irrigUrgency m = URGENT /\
       irrigRec m = ("Apply " ++ show (Math_round (add deficit 15))
                       ++ " mm within 24h. Soil critically dry.")%string)
    /\ (~ urgent -> soon ->
       irrigUrgency m = SOON /\
       irrigRec m = ("Schedule " ++ show (Math_round (add deficit 8))
                       ++ " mm irrigation within 3 days.")%string)
    /\ (~ urgent -> ~ soon ->
       irrigUrgency m = IRRIG_OK /\
       irrigRec m = ("Sufficient moisture. Next irrigation in ~"
                       ++ show (Math_round (sub 7 (div weekly 3)))
                       ++ " days.")%string)
    /\ (soilM < 0.1 ->
        sub (mul et0 7) weekly == 40 ->
        add (sub (mul et0 7) weekly) 15 == 55 ->
        irrigUrgency m = URGENT /\
        irrigRec m = "Apply 55 mm within 24h. Soil critically dry."%string).
Proof.
  intros W.
  destruct (deriveMetrics_with_irrigation raw cropType W) as [m [E I]].
  exists m. split; [exact E |].
  intros soilM et0 weekly deficit urgent soon.
  fold soilM et0 weekly in I.
  assert (Iu : irrigUrgency m
               = snd (irrigation_with add sub mul div soilM et0 weekly))
    by now rewrite <- I.
  assert (Ir : irrigRec m
               = fst (irrigation_with add sub mul div soilM et0 weekly))
    by now rewrite <- I.
  rewrite Iu, Ir. clear I Iu Ir.
  split; [| split; [| split]].
  - intros U. now rewrite (irrigation_with_urgent _ _ _ U).
  - intros U S. now rewrite (irrigation_with_soon _ _ _ U S).
  - intros U S. now rewrite (irrigation_with_ok _ _ _ U S).
  - intros Hs Hd Ha.
    assert (U : urgent) by (left; exact Hs).
    rewrite (irrigation_with_urgent _ _ _ U).
    split; [reflexivity |]. cbn [fst].
    assert (D : Qmax 0 (sub (mul et0 7) weekly) = sub (mul et0 7) weekly).
    { unfold Qmax, GenericMinMax.gmax.
      assert (L : 0 < sub (mul et0 7) weekly) by (rewrite Hd; reflexivity).
      destruct (Qcompare 0 (sub (mul et0 7) weekly)) eqn:C; trivial.
      - apply Qeq_alt in C. lra.
      - apply Qgt_alt in C. lra. }
    assert (R : Math_round (add (Qmax 0 (sub (mul et0 7) weekly)) 15) = 55%Z).
    { rewrite D. rewrite <- (Math_round_Z 55). now apply Math_round_comp. }
    rewrite R. reflexivity.
Qed.

End IrrigationRule.

(** The rule at binary64 arithmetic: a week that exact arithmetic on the
    written decimals would put at a deficit of 30 comes to just above it
    and is URGENT, 45 mm; the dry field asks for 55 mm, at binary64 as at
    exact arithmetic. *)
Lemma irrigation_rule_witness :
  (well_formed (Some tie_week) = true
   /\ exists m,
        deriveMetrics_with fadd fsub fmul fdiv (Some tie_week) "Wheat" = Ok m
        /\ irrigUrgency m = URGENT
        /\ irrigRec m = "Apply 45 mm within 24h. Soil critically dry."%string)
  /\ (well_formed (Some dry_field) = true
      /\ exists m,
           deriveMetrics_with fadd fsub fmul fdiv (Some dry_field) "Wheat"
             = Ok m
           /\ irrigUrgency m = URGENT
           /\ irrigRec m
              = "Apply 55 mm within 24h. Soil critically dry."%string)
  /\ (well_formed (Some dry_field) = true
      /\ exists m, deriveMetrics (Some dry_field) "Wheat" = Ok m
           /\ irrigUrgency m = URGENT
           /\ irrigRec m
              = "Apply 55 mm within 24h. Soil critically dry."%string).
Proof.
  split; [| split]; (split; [reflexivity |]).
  - destruct (irrigation_rule fadd fsub fmul fdiv tie_week "Wheat" eq_refl)
      as [m [E (U & _)]].
    exists m. split; [exact E |].
    assert (H : r_soilM (observed tie_week) < 0.1
                \/ 30 < Qmax 0 (fsub (fmul (r_et0 (observed tie_week)) 7)
                            (fold_left (fun a b => fadd a (b ?? 0))
                               (elements (precipitation_sum
                                            (payload_daily tie_week)) []) 0)))
      by (right; vm_compute; reflexivity).
    destruct (U H) as [Hu Hr]. split; [exact Hu |].
    rewrite Hr. vm_compute. reflexivity.
  - destruct (irrigation_rule fadd fsub fmul fdiv dry_field "Wheat" eq_refl)
      as [m [E (_ & _ & _ & S)]].
    exists m. split; [exact E |].
    apply S; vm_compute; reflexivity.
  - destruct (irrigation_rule Qplus Qminus Qmult Qdiv dry_field "Wheat"
                eq_refl)
      as [m [E (_ & _ & _ & S)]].
    exists m. split; [exact E |]. apply S; reflexivity.
Defined.

(** The block at exact arithmetic, where the advice is OK. *)
Lemma irrigation_ok (soilM et0 precipWeek : Q) :
  let deficit := Qmax 0 (et0 * 7 - precipWeek) in
  ~ (soilM < 0.1 \/ 30 < deficit) ->
  ~ (soilM < 0.2 \/ 15 < deficit) ->
  irrigation soilM et0 precipWeek =
    ("Sufficient moisture. Next irrigation in ~"
       ++ show (Math_round (7 - precipWeek / 3)) ++ " days.",
     IRRIG_OK)%string.
Proof.
  intros deficit N1 N2.
  exact (irrigation_with_ok Qplus Qminus Qmult Qdiv soilM et0 precipWeek
           N1 N2).
Qed.

(** ** Temperature alert *)

Lemma temperature_alert_level (tMax tMin : Q) :
  (42 < tMax -> snd (temperature_alert tMax tMin) = ALERT_CRITICAL)
  /\ (~ 42 < tMax -> 36 < tMax ->
        snd (temperature_alert tMax tMin) = ALERT_HIGH)
  /\ (~ 36 < tMax -> tMin < 4 ->
        snd (temperature_alert tMax tMin) = ALERT_HIGH)
  /\ (~ 36 < tMax -> ~ tMin < 4 -> tMin < 10 ->
        snd (temperature_alert tMax tMin) = ALERT_MODERATE)
  /\ (~ 36 < tMax -> ~ tMin < 10 ->
        snd (temperature_alert tMax tMin) = ALERT_OK).
Proof.
  unfold temperature_alert, gtb.
  repeat split; intros; by_cases; try reflexivity; exfalso; lra.
Qed.

(** C5. The alert level follows the ordered chain on today's maximum and
    minimum: above 42 CRITICAL; else above 36 HIGH; else minimum below 4
    HIGH; else minimum below 10 MODERATE; else OK.  A forecast maximum of
    43 for day 0 gives CRITICAL whatever the rest of the payload holds. *)
Theorem temperature_alert_chain (raw : Raw) (cropType : string) :
  well_formed (Some raw) = true ->
  exists m, deriveMetrics (Some raw) cropType = Ok m /\
    let dayMax := r_tMax (observed raw) in
    let dayMin := r_tMin (observed raw) in
    (42 < dayMax -> tempAlertLevel m = ALERT_CRITICAL)
    /\ (~ 42 < dayMax -> 36 < dayMax -> tempAlertLevel m = ALERT_HIGH)
    /\ (~ 36 < dayMax -> dayMin < 4 -> tempAlertLevel m = ALERT_HIGH)
    /\ (~ 36 < dayMax -> ~ dayMin < 4 -> dayMin < 10 ->
          tempAlertLevel m = ALERT_MODERATE)
    /\ (~ 36 < dayMax -> ~ dayMin < 10 -> tempAlertLevel m = ALERT_OK)
    /\ (forall t,
          at_index (temperature_2m_max (payload_daily raw)) 0 = Some t ->
          t == 43 -> tempAlertLevel m = ALERT_CRITICAL).
Proof.
  intros W.
  destruct (deriveMetrics_total (Some raw) cropType W) as [m E].
  exists m. split; [exact E |]. intros dayMax dayMin.
  destruct (deriveMetrics_fields raw cropType m E)
    as (_ & _ & _ & _ & _ & _ & _ & A & _).
  assert (L : tempAlertLevel m = snd (temperature_alert dayMax dayMin))
    by (unfold dayMax, dayMin; now rewrite <- A).
  rewrite L.
  destruct (temperature_alert_level dayMax dayMin) as (L1 & L2 & L3 & L4 & L5).
  repeat split; trivial.
  intros t Ht E43. apply L1.
  unfold dayMax, observed, readings. cbn [r_tMax]. rewrite Ht.
  cbn [nullish]. rewrite E43. reflexivity.
Qed.

Lemma temperature_alert_chain_witness :
  well_formed (Some heat_wave) = true
  /\ exists m, deriveMetrics (Some heat_wave) "Rice" = Ok m
       /\ tempAlertLevel m = ALERT_CRITICAL.
Proof.
  split; [reflexivity |].
  destruct (temperature_alert_chain heat_wave "Rice" eq_refl)
    as [m [E (_ & _ & _ & _ & _ & S)]].
  exists m. split; [exact E |]. apply (S 43); reflexivity.
Defined.

(** ** Nutrient alerts *)

(** C6. The alerts hold the "adequate" message exactly when the three
    scores are all at least 60, and then nothing else; otherwise they hold,
    in the order N, P, K, one advisory for each score below 60, quoting
    100 minus that score, and no "adequate" message. *)
Theorem nutrient_alerts_rule (raw : Raw) (cropType : string) :
  well_formed (Some raw) = true ->
  exists m, deriveMetrics (Some raw) cropType = Ok m /\
    let n := nScore m in
    let p := pScore m in
    let k := kScore m in
    let adequate :=
      "Nutrient levels appear adequate for current conditions."%string in
    let all_adequate := (60 <= n /\ 60 <= p /\ 60 <= k)%Z in
    (In adequate (nutrientAlerts m) <-> all_adequate)
    /\ (all_adequate -> nutrientAlerts m = [adequate])
    /\ (~ all_adequate ->
        nutrientAlerts m =
          (if (n <? 60)%Z
           then [("Apply 30–60 kg/ha urea (N deficit: "
                    ++ show (100 - n) ++ "%)")%string]
           else [])
          ++ (if (p <? 60)%Z
              then [("Apply DAP/SSP (P deficit: "
                       ++ show (100 - p) ++ "%)")%string]
              else [])
          ++ (if (k <? 60)%Z
              then [("Apply MOP/SOP (K deficit: "
                       ++ show (100 - k) ++ "%)")%string]
              else [])).
Proof.
  intros W.
  destruct (deriveMetrics_total (Some raw) cropType W) as [m E].
  exists m. split; [exact E |]. intros n p k adequate all_adequate.
  destruct (deriveMetrics_fields raw cropType m E)
    as (_ & _ & _ & _ & _ & _ & A & _).
  fold n p k in A. rewrite A. clear A E W.
  unfold nutrient_alerts, push_if, all_adequate.
  destruct (Z.ltb_spec n 60), (Z.ltb_spec p 60), (Z.ltb_spec k 60);
    cbn [app push_if_empty];
    (split; [split | split]);
    try (intros; exfalso; lia);
    try (intros; reflexivity);
    try (intros; left; reflexivity);
    try (intros; repeat split; assumption);
    unfold urea_alert, dap_alert, mop_alert, adequate;
    cbn [In]; intros I; exfalso;
    repeat (destruct I as [I | I]; [discriminate I |]); exact I.
Qed.

Lemma nutrient_alerts_rule_witness :
  well_formed (Some parched_field) = true
  /\ exists m, deriveMetrics (Some parched_field) "Wheat" = Ok m
       /\ nutrientAlerts m =
            ["Apply 30–60 kg/ha urea (N deficit: 45%)"%string].
Proof.
  split; [reflexivity |].
  destruct (nutrient_alerts_rule parched_field "Wheat" eq_refl)
    as [m [E (_ & _ & S)]].
  exists m. split; [exact E |].
  pose proof E as E'. vm_compute in E'. injection E' as <-.
  rewrite S; [reflexivity | cbn; lia].
Defined.

(** ** Soil health *)

(** C7. The soil-health index is the rounded plain mean of the six
    subscores, and the status is EXCELLENT from 80, GOOD from 60, FAIR
    from 40, POOR below. *)
Theorem soil_health_composite (raw : Raw) (cropType : string) :
  well_formed (Some raw) = true ->
  exists m, deriveMetrics (Some raw) cropType = Ok m /\
    let subscores :=
      [mScore m; stScore m; aerationScore m; inject_Z (organicScore m);
       inject_Z (microbialScore m); inject_Z (structureScore m)] in
    let mean :=
      fold_right Qplus 0 subscores
        / inject_Z (Z.of_nat (List.length subscores)) in
    soilHealth m = Math_round mean
    /\ ((80 <= soilHealth m)%Z -> soilStatus m = EXCELLENT)
    /\ ((60 <= soilHealth m < 80)%Z -> soilStatus m = GOOD)
    /\ ((40 <= soilHealth m < 60)%Z -> soilStatus m = FAIR)
    /\ ((soilHealth m < 40)%Z -> soilStatus m = POOR).
Proof.
  intros W.
  destruct (deriveMetrics_total (Some raw) cropType W) as [m E].
  exists m. split; [exact E |]. intros subscores mean.
  destruct (deriveMetrics_fields raw cropType m E)
    as (_ & _ & _ & _ & _ & _ & _ & _ & _
        & Hm & Hst & Ha & Ho & Hmi & Hs & Hh & Hstat).
  split.
  - rewrite Hh. unfold soil_health. apply Math_round_comp.
    unfold mean, subscores. rewrite Hm, Hst, Ha, Ho, Hmi, Hs.
    cbn [fold_right List.length]. change (inject_Z (Z.of_nat 6)) with 6.
    field.
  - rewrite Hstat. unfold soil_status.
    repeat split; intros B;
      repeat match goal with
      | |- context [(?a >=? ?b)%Z] =>
          destruct (Z.geb_spec a b); try lia
      end; reflexivity.
Qed.

Lemma soil_health_composite_witness :
  well_formed (Some bare_payload) = true
  /\ exists m, deriveMetrics (Some bare_payload) "Wheat" = Ok m
       /\ soilStatus m = EXCELLENT.
Proof.
  split; [reflexivity |].
  destruct (soil_health_composite bare_payload "Wheat" eq_refl)
    as [m [E (_ & S & _)]].
  exists m. split; [exact E |]. apply S.
  pose proof E as E'. vm_compute in E'. injection E' as <-.
  cbn. lia.
Defined.

(** ** Every reported score is within 0 and 100 *)

Lemma Math_round_clamped (lo hi x : Q) :
  0 <= lo -> lo <= hi -> hi <= 100 ->
  (0 <= Math_round (Math_max lo (Math_min hi x)) <= 100)%Z.
Proof.
  intros H0 Hlh H100. apply Math_round_between.
  change (inject_Z 0) with 0. change (inject_Z 100) with 100.
  pose proof (Math_clamp lo hi x Hlh). lra.
Qed.

Lemma n_score_range (soilT soilM vpd temp : Q) :
  (0 <= n_score soilT soilM vpd temp <= 100)%Z.
Proof. apply Math_round_clamped; lra. Qed.

Lemma p_score_range (soilT humidity precip : Q) :
  (0 <= p_score soilT humidity precip <= 100)%Z.
Proof. apply Math_round_clamped; lra. Qed.

Lemma k_score_range (vpd humidity soilM : Q) :
  (0 <= k_score vpd humidity soilM <= 100)%Z.
Proof. apply Math_round_clamped; lra. Qed.

Lemma m_score_range (soilM : Q) : 0 <= m_score soilM <= 100.
Proof.
  unfold m_score. generalize (soilMoisturePct soilM). intros pct.
  unfold gtb. by_cases; lra.
Qed.

Lemma st_score_range (soilT : Q) : 0 <= st_score soilT <= 100.
Proof. unfold st_score, gtb. by_cases; lra. Qed.

Lemma aeration_score_range (soilM : Q) : 0 <= aeration_score soilM <= 100.
Proof.
  unfold aeration_score. generalize (soilMoisturePct soilM). intros pct.
  unfold gtb, Math_max. by_cases; lra.
Qed.

Lemma organic_score_range (soilM soilT humidity : Q) :
  (0 <= organic_score soilM soilT humidity <= 100)%Z.
Proof. apply Math_round_clamped; lra. Qed.

Lemma microbial_score_range (soilM soilT vpd : Q) :
  (0 <= microbial_score soilM soilT vpd <= 100)%Z.
Proof. apply Math_round_clamped; lra. Qed.

Lemma structure_score_range (soilM soilT : Q) :
  (0 <= structure_score soilM soilT <= 100)%Z.
Proof. apply Math_round_clamped; lra. Qed.

Lemma trend_h_range (tmax : option Q) (sm uv pr : Q) :
  (0 <= trend_h tmax sm uv pr <= 100)%Z.
Proof. unfold trend_h. cbv zeta. lia. Qed.

Lemma Forall_mapi_from {A B : Type} (P : B -> Prop) (f : A -> nat -> B)
    (l : list A) :
  (forall x i, P (f x i)) -> forall i, Forall P (mapi_from f i l).
Proof.
  intros Hf. induction l as [| x l IH]; intros i; simpl.
  - constructor.
  - constructor; [apply Hf | apply IH].
Qed.

(** C8. In the object returned for a well-formed payload, the three
    nutrient scores, the six soil subscores and the health score of every
    day of the trend lie between 0 and 100. *)
Theorem reported_scores_in_range (raw : Raw) (cropType : string) :
  well_formed (Some raw) = true ->
  exists m, deriveMetrics (Some raw) cropType = Ok m
    /\ (0 <= nScore m <= 100)%Z
    /\ (0 <= pScore m <= 100)%Z
    /\ (0 <= kScore m <= 100)%Z
    /\ 0 <= mScore m <= 100
    /\ 0 <= stScore m <= 100
    /\ 0 <= aerationScore m <= 100
    /\ (0 <= organicScore m <= 100)%Z
    /\ (0 <= microbialScore m <= 100)%Z
    /\ (0 <= structureScore m <= 100)%Z
    /\ Forall (fun d => (0 <= h d <= 100)%Z) (trend m).
Proof.
  intros W.
  destruct (deriveMetrics_total (Some raw) cropType W) as [m E].
  exists m. split; [exact E |].
  destruct (deriveMetrics_fields raw cropType m E)
    as (_ & _ & _ & Hn & Hp & Hk & _ & _ & Ht
        & Hm & Hst & Ha & Ho & Hmi & Hs & _).
  rewrite Hn, Hp, Hk, Hm, Hst, Ha, Ho, Hmi, Hs, Ht.
  split; [apply n_score_range |].
  split; [apply p_score_range |].
  split; [apply k_score_range |].
  split; [apply m_score_range |].
  split; [apply st_score_range |].
  split; [apply aeration_score_range |].
  split; [apply organic_score_range |].
  split; [apply microbial_score_range |].
  split; [apply structure_score_range |].
  apply Forall_mapi_from. intros x i. apply trend_h_range.
Qed.

Lemma reported_scores_in_range_witness :
  well_formed (Some rough_week) = true
  /\ exists m, deriveMetrics (Some rough_week) "Maize" = Ok m
       /\ Forall (fun d => (0 <= h d <= 100)%Z) (trend m)
       /\ List.length (trend m) = 7%nat.
Proof.
  split; [reflexivity |].
  destruct (reported_scores_in_range rough_week "Maize" eq_refl)
    as [m [E (_ & _ & _ & _ & _ & _ & _ & _ & _ & T)]].
  exists m. split; [exact E |]. split; [exact T |].
  pose proof E as E'. vm_compute in E'. injection E' as <-. reflexivity.
Defined.

(** ** The trend and the health score *)

(** C9. Day 0 of the trend and the health score are computed apart and
    can differ: at 38 C the health score is 88 while day 0 of the trend
    scores 100. *)
Theorem trend_day0_independent :
  exists raw m d,
    well_formed raw = true
    /\ deriveMetrics raw "Wheat" = Ok m
    /\ nth_error (trend m) 0 = Some d
    /\ day d = 0%nat
    /\ h d <> health m.
Proof.
  exists (Some boundary_38). eexists. eexists.
  split; [reflexivity |]. split; [reflexivity |].
  split; [vm_compute; reflexivity |].
  split; [reflexivity |]. vm_compute. discriminate.
Qed.

(** ** The day count of the OK advice *)

Lemma Math_round_le (b : Z) (x : Q) :
  x + 0.5 < inject_Z (b + 1) -> (Math_round x <= b)%Z.
Proof.
  intros H. unfold Math_round. apply Z.lt_succ_r. rewrite Zlt_Qlt.
  apply Qle_lt_trans with (x + 0.5); [apply Qfloor_le | exact H].
Qed.

Lemma irrigation_ok_inv (soilM et0 precipWeek : Q) :
  snd (irrigation soilM et0 precipWeek) = IRRIG_OK ->
  0.2 <= soilM
  /\ irrigation_deficit et0 precipWeek <= 15
  /\ fst (irrigation soilM et0 precipWeek) =
       ("Sufficient moisture. Next irrigation in ~"
          ++ show (Math_round (7 - precipWeek / 3)) ++ " days.")%string.
Proof.
  unfold irrigation, irrigation_with.
  fold (irrigation_deficit et0 precipWeek).
  destruct ((soilM <? 0.1) || (irrigation_deficit et0 precipWeek >? 30));
    [discriminate |].
  destruct ((soilM <? 0.2) || (irrigation_deficit et0 precipWeek >? 15))
    eqn:S; [discriminate |].
  apply orb_false_iff in S. destruct S as [S1 S2].
  apply ltb_ge in S1. apply gtb_le in S2. intros _. auto.
Qed.

(** C10. The day count of the OK advice has no floor.  Some well-formed
    payload with soil moisture at least 0.20, deficit at most 15 and more
    than 19.5 mm of rain in the week is told "next irrigation in ~-3 days";
    whenever the advice is OK and the week's rain is above 19.5 mm the day
    count is zero or negative; and it goes below any bound. *)
Theorem irrigation_ok_days_unbounded :
  (exists m,
     well_formed (Some rainy_week) = true
     /\ deriveMetrics (Some rainy_week) "Wheat" = Ok m
     /\ 0.2 <= r_soilM (observed rainy_week)
     /\ Qmax 0 (r_et0 (observed rainy_week) * 7
                - weekly_precipitation rainy_week) <= 15
     /\ 19.5 < weekly_precipitation rainy_week
     /\ irrigUrgency m = IRRIG_OK
     /\ irrigRec m =
          "Sufficient moisture. Next irrigation in ~-3 days."%string)
  /\ (forall soilM et0 precipWeek,
        snd (irrigation soilM et0 precipWeek) = IRRIG_OK ->
        19.5 < precipWeek ->
        (Math_round (7 - precipWeek / 3) <= 0)%Z
        /\ fst (irrigation soilM et0 precipWeek) =
             ("Sufficient moisture. Next irrigation in ~"
                ++ show (Math_round (7 - precipWeek / 3)) ++ " days.")%string)
  /\ (forall bound : Z, exists precipWeek,
        snd (irrigation 0.25 4 precipWeek) = IRRIG_OK
        /\ (Math_round (7 - precipWeek / 3) < bound)%Z).
Proof.
  split; [| split].
  - eexists. split; [reflexivity |]. split; [reflexivity |].
    repeat split; vm_compute; congruence.
  - intros soilM et0 precipWeek OK Hrain.
    destruct (irrigation_ok_inv _ _ _ OK) as (_ & _ & Msg).
    split; [| exact Msg].
    apply Math_round_le. change (inject_Z (0 + 1)) with 1.
    assert (precipWeek / 3 == precipWeek * (1 # 3)) as -> by reflexivity.
    lra.
  - intros bound. set (k := Z.max 7 (8 - bound)).
    exists (inject_Z (3 * k)).
    assert (Hk : (7 <= k)%Z) by (unfold k; lia).
    assert (Hq : 7 <= inject_Z k)
      by (change 7 with (inject_Z 7); now rewrite <- Zle_Qle).
    assert (Hpw : inject_Z (3 * k) == 3 * inject_Z k)
      by (rewrite inject_Z_mult; reflexivity).
    split.
    + rewrite irrigation_ok; [reflexivity | |];
        intros [Hs | Hd]; try (revert Hs; apply Qle_not_lt; lra);
        revert Hd; apply Qle_not_lt; apply Q.max_lub; lra.
    + assert (R : Math_round (7 - inject_Z (3 * k) / 3) = (7 - k)%Z).
      { rewrite <- (Math_round_Z (7 - k)). apply Math_round_comp.
        unfold Zminus. rewrite inject_Z_plus, inject_Z_opp, Hpw.
        change (inject_Z 7) with 7. field. }
      rewrite R. unfold k. lia.
Qed.

Lemma irrigation_ok_days_unbounded_witness :
  19.5 < 30
  /\ snd (irrigation 0.25 4 30) = IRRIG_OK
  /\ (Math_round (7 - 30 / 3) <= 0)%Z.
Proof.
  split; [reflexivity |]. split; [reflexivity |].
  apply (proj1 (proj2 irrigation_ok_days_unbounded) 0.25 4 30);
    reflexivity.
Defined.

(** * Further properties of the derivation *)

(** The remaining fields of the returned object, in terms of the readings
    of the payload. *)
Lemma deriveMetrics_labels (raw : Raw) (cropType : string) (m : Metrics) :
  deriveMetrics (Some raw) cropType = Ok m ->
  let rd := observed raw in
  stressLevel m = stress_level (health m)
  /\ stressColor m = stress_color (health m)
  /\ soilStatusColor m = soil_status_color (soilHealth m)
  /\ soilIssues m =
       soil_issues (r_soilM rd) (r_soilT rd) (r_humidity rd) (r_vpd rd)
  /\ temp m = r_temp rd
  /\ tMax m = r_tMax rd
  /\ tMin m = r_tMin rd
  /\ soilM m = toFixed 1 (soilMoisturePct (r_soilM rd))
  /\ et0 m = toFixed 1 (r_et0 rd)
  /\ deficit m =
       toFixed 1 (irrigation_deficit (r_et0 rd) (weekly_precipitation raw)).
Proof.
  intros E rd. unfold deriveMetrics, deriveMetrics_with in E.
  destruct (or_array (precipitation_sum (section (wx raw) daily no_daily)) [])
    as [week |] eqn:Ew; [| discriminate].
  apply or_array_elements in Ew. cbn [bind] in E.
  destruct (or_array (temperature_2m_max (section (wx raw) daily no_daily)) _)
    as [maxima |]; [| discriminate].
  cbn [bind] in E. injection E as <-. subst week.
  cbn [stressLevel stressColor soilStatusColor soilIssues temp tMax tMin
       soilM et0 deficit health soilHealth].
  unfold rd, observed, payload_current, payload_daily, payload_hourly,
    weekly_precipitation, payload_daily.
  repeat split.
Qed.

(** ** Stress level and colour *)

(** X1. The stress level cuts the health score at 75, 50 and 30, each score
    falling in exactly one class, and the colour is the colour of the
    class. *)
Theorem stress_level_partition (raw : Raw) (cropType : string) :
  well_formed (Some raw) = true ->
  exists m, deriveMetrics (Some raw) cropType = Ok m
    /\ (stressLevel m = HEALTHY <-> (75 <= health m)%Z)
    /\ (stressLevel m = MODERATE <-> (50 <= health m < 75)%Z)
    /\ (stressLevel m = HIGH <-> (30 <= health m < 50)%Z)
    /\ (stressLevel m = CRITICAL <-> (health m < 30)%Z)
    /\ stressColor m =
         match stressLevel m with
         | HEALTHY => "#00ff88"
         | MODERATE => "#ffd60a"
         | HIGH => "#ff6b2b"
         | CRITICAL => "#ff3864"
         end%string.
Proof.
  intros W.
  destruct (deriveMetrics_total (Some raw) cropType W) as [m E].
  exists m. split; [exact E |].
  destruct (deriveMetrics_labels raw cropType m E) as (L & C & _).
  rewrite L, C. generalize (health m). intros z.
  unfold stress_level, stress_color.
  destruct (Z.geb_spec z 75); [| destruct (Z.geb_spec z 50);
    [| destruct (Z.geb_spec z 30)]];
    repeat split; intros; try discriminate; try lia; reflexivity.
Qed.

Lemma stress_level_partition_witness :
  well_formed (Some rough_week) = true
  /\ exists m, deriveMetrics (Some rough_week) "Maize" = Ok m
       /\ stressLevel m = HIGH
       /\ stressColor m = "#ff6b2b"%string.
Proof.
  split; [reflexivity |].
  destruct (stress_level_partition rough_week "Maize" eq_refl)
    as [m [E (_ & _ & Hi & _ & Col)]].
  exists m. split; [exact E |].
  assert (L : stressLevel m = HIGH).
  { apply Hi. pose proof E as E'. vm_compute in E'. injection E' as <-.
    cbn [health]. lia. }
  split; [exact L |]. rewrite Col, L. reflexivity.
Defined.

(** ** The health score against the readings *)

Lemma Math_round_ge (a : Z) (x : Q) :
  inject_Z a <= x -> (a <= Math_round x)%Z.
Proof.
  intros H. unfold Math_round. rewrite <- (Qfloor_Z a) at 1.
  apply Qfloor_resp_le. lra.
Qed.

Lemma temp_penalty_bounds (t h : Q) :
  temp_penalty t h <= h /\ (t <= 38 -> h - 30 <= temp_penalty t h).
Proof. unfold temp_penalty, gtb. by_cases; split; intros; lra. Qed.

Lemma humidity_penalty_bounds (hu h : Q) :
  h - 15 <= humidity_penalty hu h <= h.
Proof. unfold humidity_penalty, gtb. by_cases; lra. Qed.

Lemma vpd_penalty_bounds (v h : Q) : h - 20 <= vpd_penalty v h <= h.
Proof. unfold vpd_penalty, gtb. by_cases; lra. Qed.

Lemma uv_penalty_bounds (uv h : Q) : h - 10 <= uv_penalty uv h <= h.
Proof. unfold uv_penalty, gtb. by_cases; lra. Qed.

Lemma soil_moisture_bonus_bounds (sm h : Q) :
  h - 15 <= soil_moisture_bonus sm h <= h + 5.
Proof. unfold soil_moisture_bonus, gtb. by_cases; lra. Qed.

Lemma health_raw_bounds (t hu v uv sm : Q) :
  health_raw t hu v uv sm <= temp_penalty t 100 + 5
  /\ temp_penalty t 100 - 60 <= health_raw t hu v uv sm.
Proof.
  unfold health_raw.
  pose proof (humidity_penalty_bounds hu (temp_penalty t 100)).
  pose proof (vpd_penalty_bounds v (humidity_penalty hu (temp_penalty t 100))).
  pose proof (uv_penalty_bounds uv
    (vpd_penalty v (humidity_penalty hu (temp_penalty t 100)))).
  pose proof (soil_moisture_bonus_bounds sm
    (uv_penalty uv (vpd_penalty v (humidity_penalty hu (temp_penalty t 100))))).
  lra.
Qed.

(** X2. In the comfortable band (air 18 to 32 C, humidity 50 to 90 %, VPD at
    most 2 kPa, UV at most 7, soil moisture at least 0.10) nothing is taken
    off: the health score is 100 and the field is HEALTHY. *)
Theorem health_full_marks (raw : Raw) (cropType : string) :
  well_formed (Some raw) = true ->
  let rd := observed raw in
  18 <= r_temp rd <= 32 ->
  50 <= r_humidity rd <= 90 ->
  r_vpd rd <= 2 ->
  r_uvMax rd <= 7 ->
  0.1 <= r_soilM rd ->
  exists m, deriveMetrics (Some raw) cropType = Ok m
    /\ health m = 100%Z /\ stressPct m = 0%Z /\ stressLevel m = HEALTHY.
Proof.
  intros W rd Ht Hh Hv Hu Hs.
  destruct (deriveMetrics_total (Some raw) cropType W) as [m E].
  exists m. split; [exact E |].
  destruct (deriveMetrics_fields raw cropType m E) as (H & S & _).
  destruct (deriveMetrics_labels raw cropType m E) as (L & _).
  fold rd in H.
  assert (H100 : health m = 100%Z).
  { rewrite H. unfold health_score.
    assert (R : (100 <= Math_round (health_raw (r_temp rd) (r_humidity rd)
                   (r_vpd rd) (r_uvMax rd) (r_soilM rd)))%Z).
    { apply Math_round_ge. change (inject_Z 100) with 100.
      unfold health_raw, soil_moisture_bonus, uv_penalty, vpd_penalty,
        humidity_penalty, temp_penalty, gtb.
      by_cases; lra. }
    lia. }
  rewrite S, L, H100. repeat split.
Qed.

Lemma health_full_marks_witness :
  well_formed (Some mild_week) = true
  /\ exists m, deriveMetrics (Some mild_week) "Rice" = Ok m
       /\ health m = 100%Z /\ stressPct m = 0%Z /\ stressLevel m = HEALTHY.
Proof.
  split; [reflexivity |].
  apply (health_full_marks mild_week "Rice" eq_refl);
    vm_compute; repeat split; intros D; discriminate D.
Defined.

(** X3. Without heat above 38 C the penalties cannot add up to more than 90:
    the health score stays at 10 or more.  Heat alone can take everything:
    from 65 C the score is 0 and the level CRITICAL, whatever the other
    readings. *)
Theorem health_floor_and_heat (raw : Raw) (cropType : string) :
  well_formed (Some raw) = true ->
  exists m, deriveMetrics (Some raw) cropType = Ok m
    /\ (r_temp (observed raw) <= 38 -> (10 <= health m)%Z)
    /\ (65 <= r_temp (observed raw) ->
        health m = 0%Z /\ stressPct m = 100%Z /\ stressLevel m = CRITICAL).
Proof.
  intros W.
  destruct (deriveMetrics_total (Some raw) cropType W) as [m E].
  exists m. split; [exact E |].
  destruct (deriveMetrics_fields raw cropType m E) as (H & S & _).
  destruct (deriveMetrics_labels raw cropType m E) as (L & _).
  set (rd := observed raw) in *.
  destruct (health_raw_bounds (r_temp rd) (r_humidity rd) (r_vpd rd)
              (r_uvMax rd) (r_soilM rd)) as [Hup Hlow].
  destruct (temp_penalty_bounds (r_temp rd) 100) as [_ Tlow].
  split.
  - intros Ht. rewrite H. unfold health_score.
    assert (R : (10 <= Math_round (health_raw (r_temp rd) (r_humidity rd)
                   (r_vpd rd) (r_uvMax rd) (r_soilM rd)))%Z).
    { apply Math_round_ge. change (inject_Z 10) with 10.
      specialize (Tlow Ht). lra. }
    lia.
  - intros Ht.
    assert (H0 : health m = 0%Z).
    { rewrite H. unfold health_score.
      assert (R : (Math_round (health_raw (r_temp rd) (r_humidity rd)
                     (r_vpd rd) (r_uvMax rd) (r_soilM rd)) <= 0)%Z).
      { apply Math_round_le. change (inject_Z (0 + 1)) with 1.
        rewrite (temp_penalty_above (r_temp rd) 100) in Hup by lra. lra. }
      lia. }
    rewrite S, L, H0. repeat split.
Qed.

Lemma health_floor_and_heat_witness :
  well_formed (Some rough_week) = true
  /\ r_temp (observed rough_week) <= 38
  /\ exists m, deriveMetrics (Some rough_week) "Maize" = Ok m
       /\ (10 <= health m)%Z.
Proof.
  split; [reflexivity |]. split; [vm_compute; discriminate |].
  destruct (health_floor_and_heat rough_week "Maize" eq_refl)
    as [m [E [F _]]].
  exists m. split; [exact E |]. apply F. vm_compute. discriminate.
Defined.

(** X4. The heat penalty dips just above 38 C: at 38 C the band above 32 takes
    12 points, while between 38 and 41 C the rule above 38 takes less than
    12.  With all other readings equal, a field between 38 and 41 C scores
    at least as high as one at 38 C. *)
Theorem heat_penalty_dip (t hu v uv sm : Q) :
  38 < t < 41 ->
  health_raw 38 hu v uv sm < health_raw t hu v uv sm
  /\ (health_score 38 hu v uv sm <= health_score t hu v uv sm)%Z.
Proof.
  intros [Hlo Hhi].
  assert (R : health_raw 38 hu v uv sm < health_raw t hu v uv sm).
  { unfold health_raw.
    assert (T : temp_penalty t 100 == temp_penalty 38 100 + (12 - (t - 38) * 4)).
    { rewrite temp_penalty_above by lra.
      rewrite temp_penalty_band by lra. ring. }
    unfold soil_moisture_bonus, uv_penalty, vpd_penalty, humidity_penalty, gtb.
    by_cases; lra. }
  split; [exact R |].
  unfold health_score.
  assert (M : (Math_round (health_raw 38 hu v uv sm)
               <= Math_round (health_raw t hu v uv sm))%Z).
  { unfold Math_round. apply Qfloor_resp_le. lra. }
  lia.
Qed.

Lemma heat_penalty_dip_witness :
  38 < 39 < 41
  /\ (health_score 38 50 1 5 0.25 <= health_score 39 50 1 5 0.25)%Z.
Proof.
  split; [split; reflexivity |].
  apply (heat_penalty_dip 39 50 1 5 0.25). split; reflexivity.
Defined.

(** ** Nutrient scores *)






(** ** Irrigation amounts *)

Lemma irrigation_deficit_nonneg (et0 precipWeek : Q) :
  0 <= irrigation_deficit et0 precipWeek.
Proof.
  unfold irrigation_deficit, irrigation_deficit_with, Math_max.
  by_cases; lra.
Qed.

Lemma irrigation_cases (soilM et0 precipWeek : Q) :
  let deficit := irrigation_deficit et0 precipWeek in
  irrigation soilM et0 precipWeek =
    ("Apply " ++ show (Math_round (deficit + 15))
       ++ " mm within 24h. Soil critically dry.", URGENT)%string
  \/ (deficit <= 30
      /\ irrigation soilM et0 precipWeek =
           ("Schedule " ++ show (Math_round (deficit + 8))
              ++ " mm irrigation within 3 days.", SOON)%string)
  \/ (deficit <= 15
      /\ irrigation soilM et0 precipWeek =
           ("Sufficient moisture. Next irrigation in ~"
              ++ show (Math_round (7 - precipWeek / 3)) ++ " days.",
            IRRIG_OK)%string).
Proof.
  intros deficit. unfold irrigation, irrigation_with.
  fold (irrigation_deficit et0 precipWeek). fold deficit.
  destruct ((soilM <? 0.1) || (deficit >? 30)) eqn:U; [now left |].
  apply orb_false_iff in U. destruct U as [_ U]. apply gtb_le in U.
  destruct ((soilM <? 0.2) || (deficit >? 15)) eqn:S.
  - right. left. now split.
  - apply orb_false_iff in S. destruct S as [_ S]. apply gtb_le in S.
    right. right. now split.
Qed.

(** X6. The amount of water asked for is never negative: the weekly deficit is
    at least 0, an URGENT advice asks for at least 15 mm, a SOON advice for
    8 to 38 mm; and when the week's precipitation is not negative, the OK
    advice names at most 7 days. *)
Theorem irrigation_amounts (raw : Raw) (cropType : string) :
  well_formed (Some raw) = true ->
  exists m, deriveMetrics (Some raw) cropType = Ok m
    /\ 0 <= deficit m
    /\ (irrigUrgency m = URGENT ->
        exists mm, (15 <= mm)%Z
          /\ irrigRec m = ("Apply " ++ show mm
                             ++ " mm within 24h. Soil critically dry.")%string)
    /\ (irrigUrgency m = SOON ->
        exists mm, (8 <= mm <= 38)%Z
          /\ irrigRec m = ("Schedule " ++ show mm
                             ++ " mm irrigation within 3 days.")%string)
    /\ (irrigUrgency m = IRRIG_OK ->
        0 <= weekly_precipitation raw ->
        exists days, (days <= 7)%Z
          /\ irrigRec m = ("Sufficient moisture. Next irrigation in ~"
                             ++ show days ++ " days.")%string).
Proof.
  intros W.
  destruct (deriveMetrics_total (Some raw) cropType W) as [m E].
  exists m. split; [exact E |].
  destruct (deriveMetrics_fields raw cropType m E) as (_ & _ & I & _).
  destruct (deriveMetrics_labels raw cropType m E)
    as (_ & _ & _ & _ & _ & _ & _ & _ & _ & D).
  set (e := r_et0 (observed raw)) in *.
  set (p := weekly_precipitation raw) in *.
  pose proof (irrigation_deficit_nonneg e p) as D0.
  split.
  - rewrite D. unfold toFixed.
    destruct (ltb_cases (irrigation_deficit e p) 0) as [[C ->] | [C ->]];
      [lra |].
    change (inject_Z (10 ^ Z.of_nat 1)) with 10.
    assert (F : (0 <= Qfloor (irrigation_deficit e p * 10 + 0.5))%Z).
    { rewrite <- (Qfloor_Z 0). apply Qfloor_resp_le.
      change (inject_Z 0) with 0. lra. }
    rewrite Zle_Qle in F. change (inject_Z 0) with 0 in F.
    apply Qle_shift_div_l; [reflexivity | lra].
  - assert (Iu : irrigUrgency m = snd (irrigation (r_soilM (observed raw)) e p))
      by now rewrite <- I.
    assert (Ir : irrigRec m = fst (irrigation (r_soilM (observed raw)) e p))
      by now rewrite <- I.
    rewrite Iu, Ir.
    destruct (irrigation_cases (r_soilM (observed raw)) e p)
      as [-> | [[B ->] | [B ->]]]; cbn [fst snd];
      (split; [| split]); intros U; try discriminate U.
    + eexists. split; [| reflexivity].
      apply Math_round_ge. change (inject_Z 15) with 15. lra.
    + eexists. split; [| reflexivity].
      apply Math_round_between.
      change (inject_Z 8) with 8. change (inject_Z 38) with 38. lra.
    + intros P. eexists. split; [| reflexivity].
      apply Math_round_le. change (inject_Z (7 + 1)) with 8.
      assert (p / 3 == p * (1 # 3)) as -> by reflexivity. lra.
Qed.

Lemma irrigation_amounts_witness :
  well_formed (Some mild_week) = true
  /\ exists m, deriveMetrics (Some mild_week) "Rice" = Ok m
       /\ exists mm, (8 <= mm <= 38)%Z
            /\ irrigRec m = ("Schedule " ++ show mm
                               ++ " mm irrigation within 3 days.")%string.
Proof.
  split; [reflexivity |].
  destruct (irrigation_amounts mild_week "Rice" eq_refl)
    as [m [E (_ & _ & S & _)]].
  exists m. split; [exact E |]. apply S.
  pose proof E as E'. vm_compute in E'. injection E' as <-. reflexivity.
Defined.

(** ** Soil health index and soil issues *)

Lemma issues_chain (b1 b2 b3 b4 b5 : bool) (s1 s2 s3 s4 s5 ok : string) :
  s1 <> ok -> s2 <> ok -> s3 <> ok -> s4 <> ok -> s5 <> ok ->
  let l := push_if_empty ok
             (push_if b5 s5 (push_if b4 s4 (push_if b3 s3
               (push_if b2 s2 (push_if b1 s1 []))))) in
  l <> []
  /\ (List.length l <= 5)%nat
  /\ (In ok l <->
      b1 = false /\ b2 = false /\ b3 = false /\ b4 = false /\ b5 = false)
  /\ (In ok l -> l = [ok]).
Proof.
  intros N1 N2 N3 N4 N5.
  destruct b1, b2, b3, b4, b5; cbn;
    (split; [discriminate |]); (split; [lia |]);
    (split; [split |]);
    try (intros; repeat split; reflexivity);
    try (intros (? & ? & ? & ? & ?); discriminate);
    try (intros; left; reflexivity);
    intros I; exfalso;
    repeat (destruct I as [I | I]; [congruence |]); exact I.
Qed.

Lemma inject_Z_ltb_60 (z : Z) : (inject_Z z <? 60) = false <-> (60 <= z)%Z.
Proof.
  rewrite ltb_ge. change 60 with (inject_Z 60). now rewrite <- Zle_Qle.
Qed.

Lemma Math_round_ge_half (a : Z) (x : Q) :
  inject_Z a <= x + 0.5 -> (a <= Math_round x)%Z.
Proof.
  intros H. unfold Math_round. rewrite <- (Qfloor_Z a) at 1.
  now apply Qfloor_resp_le.
Qed.

Lemma soil_health_range (soilM soilT humidity vpd : Q) :
  (17 <= soil_health soilM soilT humidity vpd <= 100)%Z.
Proof.
  unfold soil_health.
  pose proof (m_score_range soilM) as Hm.
  pose proof (st_score_range soilT) as Hst.
  pose proof (aeration_score_range soilM) as Ha.
  assert (Hm' : 10 <= m_score soilM).
  { unfold m_score. generalize (soilMoisturePct soilM). intros pct.
    unfold gtb. by_cases; lra. }
  assert (Hst' : 20 <= st_score soilT)
    by (unfold st_score, gtb; by_cases; lra).
  assert (Ha' : 20 <= aeration_score soilM).
  { unfold aeration_score. generalize (soilMoisturePct soilM). intros pct.
    unfold gtb, Math_max. by_cases; lra. }
  assert (Ho : (20 <= organic_score soilM soilT humidity <= 100)%Z).
  { apply Math_round_between. change (inject_Z 20) with 20.
    change (inject_Z 100) with 100. apply Math_clamp. lra. }
  assert (Hmi : (10 <= microbial_score soilM soilT vpd <= 100)%Z).
  { apply Math_round_between. change (inject_Z 10) with 10.
    change (inject_Z 100) with 100. apply Math_clamp. lra. }
  assert (Hs : (20 <= structure_score soilM soilT <= 100)%Z).
  { apply Math_round_between. change (inject_Z 20) with 20.
    change (inject_Z 100) with 100. apply Math_clamp. lra. }
  rewrite !Zle_Qle in Ho, Hmi, Hs.
  change (inject_Z 20) with 20 in *. change (inject_Z 10) with 10 in *.
  change (inject_Z 100) with 100 in *.
  set (o := inject_Z (organic_score soilM soilT humidity)) in *.
  set (mi := inject_Z (microbial_score soilM soilT vpd)) in *.
  set (s := inject_Z (structure_score soilM soilT)) in *.
  set (a := aeration_score soilM) in *.
  set (mm := m_score soilM) in *. set (st := st_score soilT) in *.
  assert (D : (mm + st + a + o + mi + s) / 6
              == (mm + st + a + o + mi + s) * (1 # 6)) by reflexivity.
  split.
  - apply Math_round_ge_half. change (inject_Z 17) with 17. lra.
  - apply Math_round_le. change (inject_Z (100 + 1)) with 101. lra.
Qed.

Lemma Math_clamp_ge (lo hi x c : Q) :
  c <= x -> c <= hi -> c <= Math_max lo (Math_min hi x).
Proof.
  intros Hx Hhi. unfold Math_min. by_cases; unfold Math_max; by_cases; lra.
Qed.

(** X7. The soil-health index lies between 17 and 100.  The issue list is
    never empty and holds at most five lines; it is the single "healthy"
    line exactly when moisture, soil temperature, aeration, microbial
    activity and organic matter all score at least 60, and then the
    structure score and the index are at least 60 as well, so a soil called
    healthy is never rated FAIR or POOR. *)
Theorem soil_issues_rule (raw : Raw) (cropType : string) :
  well_formed (Some raw) = true ->
  exists m, deriveMetrics (Some raw) cropType = Ok m /\
    let healthy := "✅ Soil conditions are healthy and well-balanced"%string in
    (17 <= soilHealth m <= 100)%Z
    /\ soilIssues m <> []
    /\ (List.length (soilIssues m) <= 5)%nat
    /\ (In healthy (soilIssues m) <->
        60 <= mScore m /\ 60 <= stScore m /\ 60 <= aerationScore m
        /\ (60 <= microbialScore m)%Z /\ (60 <= organicScore m)%Z)
    /\ (In healthy (soilIssues m) ->
        soilIssues m = [healthy]
        /\ (60 <= structureScore m)%Z
        /\ (60 <= soilHealth m)%Z
        /\ (soilStatus m = GOOD \/ soilStatus m = EXCELLENT)).
Proof.
  intros W.
  destruct (deriveMetrics_total (Some raw) cropType W) as [m E].
  exists m. split; [exact E |]. intros healthy.
  destruct (deriveMetrics_fields raw cropType m E)
    as (_ & _ & _ & _ & _ & _ & _ & _ & _
        & Hm & Hst & Ha & Ho & Hmi & Hs & Hh & Hstat).
  destruct (deriveMetrics_labels raw cropType m E) as (_ & _ & _ & Hi & _).
  set (rd := observed raw) in *.
  split; [rewrite Hh; apply soil_health_range |].
  rewrite Hi. unfold soil_issues. cbv zeta.
  match goal with
  | |- context [push_if_empty ?ok
         (push_if ?b5 ?s5 (push_if ?b4 ?s4 (push_if ?b3 ?s3
           (push_if ?b2 ?s2 (push_if ?b1 ?s1 [])))))] =>
      assert (C : s1 <> ok /\ s2 <> ok /\ s3 <> ok /\ s4 <> ok /\ s5 <> ok)
        by (repeat split;
            repeat match goal with
            | |- context [if ?c then _ else _] => destruct c
            end; discriminate);
      destruct C as (N1 & N2 & N3 & N4 & N5);
      destruct (issues_chain b1 b2 b3 b4 b5 s1 s2 s3 s4 s5 ok N1 N2 N3 N4 N5)
        as (Ne & Len & Iff & One)
  end.
  fold healthy in Ne, Len, Iff, One |- *.
  assert (Scores :
    (m_score (r_soilM rd) <? 60) = false
    /\ (st_score (r_soilT rd) <? 60) = false
    /\ (aeration_score (r_soilM rd) <? 60) = false
    /\ (inject_Z (microbial_score (r_soilM rd) (r_soilT rd) (r_vpd rd)) <? 60)
       = false
    /\ (inject_Z (organic_score (r_soilM rd) (r_soilT rd) (r_humidity rd))
        <? 60) = false
    <-> 60 <= mScore m /\ 60 <= stScore m /\ 60 <= aerationScore m
        /\ (60 <= microbialScore m)%Z /\ (60 <= organicScore m)%Z).
  { rewrite Hm, Hst, Ha, Hmi, Ho. rewrite !inject_Z_ltb_60, !ltb_ge.
    reflexivity. }
  split; [exact Ne |]. split; [exact Len |].
  split; [exact (iff_trans Iff Scores) |].
  intros I. split; [exact (One I) |].
  apply (proj1 Iff) in I. apply (proj1 Scores) in I.
  destruct I as (Im & Ist & Ia & Imi & Io).
  rewrite Hm in Im. rewrite Hst in Ist. rewrite Ha in Ia.
  pose proof (m_score_range (r_soilM rd)) as Rm.
  pose proof (st_score_range (r_soilT rd)) as Rst.
  pose proof (aeration_score_range (r_soilM rd)) as Ra.
  assert (S60 : (60 <= structureScore m)%Z).
  { rewrite Hs. unfold structure_score. apply Math_round_ge.
    change (inject_Z 60) with 60. apply Math_clamp_ge; lra. }
  assert (H60 : (60 <= soilHealth m)%Z).
  { rewrite Hh. unfold soil_health. apply Math_round_ge.
    change (inject_Z 60) with 60.
    rewrite Hs in S60. rewrite Hmi in Imi. rewrite Ho in Io.
    rewrite Zle_Qle in S60, Imi, Io. change (inject_Z 60) with 60 in *.
    match goal with
    | |- 60 <= ?s / 6 =>
        assert (s / 6 == s * (1 # 6)) as -> by reflexivity
    end. lra. }
  split; [exact S60 |]. split; [exact H60 |].
  rewrite Hstat. unfold soil_status.
  destruct (Z.geb_spec (soilHealth m) 80); [now right |].
  destruct (Z.geb_spec (soilHealth m) 60); [now left | lia].
Qed.

Lemma soil_issues_rule_witness :
  well_formed (Some mild_week) = true
  /\ exists m, deriveMetrics (Some mild_week) "Rice" = Ok m
       /\ soilIssues m <> []
       /\ (17 <= soilHealth m <= 100)%Z.
Proof.
  split; [reflexivity |].
  destruct (soil_issues_rule mild_week "Rice" eq_refl)
    as [m [E (R & Ne & _)]].
  exists m. split; [exact E |]. split; [exact Ne | exact R].
Defined.

(** ** Shape of the trend *)

Lemma mapi_from_length {A B : Type} (f : A -> nat -> B) (l : list A) :
  forall k, List.length (mapi_from f k l) = List.length l.
Proof.
  induction l as [| x l IH]; intros k; simpl; [| rewrite IH]; reflexivity.
Qed.

Lemma mapi_from_nth_error {A B : Type} (f : A -> nat -> B) (l : list A) :
  forall k i,
    nth_error (mapi_from f k l) i
    = option_map (fun x => f x (k + i)%nat) (nth_error l i).
Proof.
  induction l as [| x l IH]; intros k i.
  - destruct i; reflexivity.
  - destruct i as [| i]; simpl.
    + now rewrite Nat.add_0_r.
    + rewrite IH. now rewrite Nat.add_succ_comm.
Qed.

(** X8. The trend has one entry per forecast maximum, seven when the
    payload has no series of maxima, and the entry at position [i] is day
    [i]; it shows a dash for its maximum exactly when the forecast holds
    [null] for that day. *)
Theorem trend_shape (raw : Raw) (cropType : string) :
  well_formed (Some raw) = true ->
  exists m, deriveMetrics (Some raw) cropType = Ok m /\
    let dly := payload_daily raw in
    (forall xs, temperature_2m_max dly = Arr xs ->
       List.length (trend m) = List.length xs)
    /\ ((forall xs, temperature_2m_max dly <> Arr xs) ->
        List.length (trend m) = 7%nat)
    /\ (forall i d, nth_error (trend m) i = Some d ->
        day d = i
        /\ (forall xs, temperature_2m_max dly = Arr xs ->
            (tmax d = None <-> nth_error xs i = Some None))).
Proof.
  intros W.
  destruct (deriveMetrics_total (Some raw) cropType W) as [m E].
  exists m. split; [exact E |]. intros dly.
  destruct (deriveMetrics_fields raw cropType m E)
    as (_ & _ & _ & _ & _ & _ & _ & _ & T & _).
  fold dly in T. rewrite T. unfold mapi.
  split; [| split].
  - intros xs Hx. rewrite mapi_from_length, Hx. reflexivity.
  - intros Hn. rewrite mapi_from_length.
    destruct (temperature_2m_max dly) as [| xs | b]; try reflexivity.
    now destruct (Hn xs).
  - intros i d Hd. rewrite mapi_from_nth_error in Hd.
    destruct (nth_error (elements (temperature_2m_max dly) _) i)
      as [x |] eqn:Hx; [| discriminate].
    cbn [option_map] in Hd. injection Hd as <-.
    cbn [day tmax trend_day Nat.add].
    split; [reflexivity |]. intros xs Hxs.
    rewrite Hxs in Hx. cbn [elements] in Hx. rewrite Hx.
    destruct x as [q |]; cbn [option_map]; split; intros H;
      try reflexivity; discriminate H.
Qed.

Lemma trend_shape_witness :
  well_formed (Some short_forecast) = true
  /\ exists m, deriveMetrics (Some short_forecast) "Wheat" = Ok m
       /\ List.length (trend m) = 2%nat.
Proof.
  split; [reflexivity |].
  destruct (trend_shape short_forecast "Wheat" eq_refl)
    as [m [E (L & _)]].
  exists m. split; [exact E |]. now rewrite (L _ eq_refl).
Defined.

(** X9. The trend looks at the forecast, the current soil moisture and the
    current air temperature only: two payloads that agree on these have
    the same trend, whatever their humidity, VPD, rain or soil
    temperature. *)
Theorem trend_ignores_other_readings (raw1 raw2 : Raw) (cropType : string) :
  well_formed (Some raw1) = true ->
  well_formed (Some raw2) = true ->
  payload_daily raw1 = payload_daily raw2 ->
  r_soilM (observed raw1) = r_soilM (observed raw2) ->
  r_temp (observed raw1) = r_temp (observed raw2) ->
  exists m1 m2,
    deriveMetrics (Some raw1) cropType = Ok m1
    /\ deriveMetrics (Some raw2) cropType = Ok m2
    /\ trend m1 = trend m2.
Proof.
  intros W1 W2 Hd Hs Ht.
  destruct (deriveMetrics_total (Some raw1) cropType W1) as [m1 E1].
  destruct (deriveMetrics_total (Some raw2) cropType W2) as [m2 E2].
  exists m1, m2. split; [exact E1 |]. split; [exact E2 |].
  destruct (deriveMetrics_fields raw1 cropType m1 E1)
    as (_ & _ & _ & _ & _ & _ & _ & _ & T1 & _).
  destruct (deriveMetrics_fields raw2 cropType m2 E2)
    as (_ & _ & _ & _ & _ & _ & _ & _ & T2 & _).
  rewrite T1, T2, Hs, Ht, Hd.
  assert (U : r_uvMax (observed raw1) = r_uvMax (observed raw2)).
  { unfold observed, readings. cbn [r_uvMax]. now rewrite Hd. }
  now rewrite U.
Qed.

Lemma trend_ignores_other_readings_witness :
  exists m1 m2,
    deriveMetrics (Some bare_payload) "Wheat" = Ok m1
    /\ deriveMetrics (Some muggy_day) "Wheat" = Ok m2
    /\ trend m1 = trend m2.
Proof.
  apply (trend_ignores_other_readings bare_payload muggy_day "Wheat");
    reflexivity.
Defined.

(** ** Temperature alert without a forecast *)

Lemma temperature_alert_air (t : Q) :
  let level := snd (temperature_alert t (t - 8)) in
  (level = ALERT_CRITICAL <-> 42 < t)
  /\ (level = ALERT_HIGH <-> 36 < t <= 42 \/ t < 12)
  /\ (level = ALERT_MODERATE <-> 12 <= t < 18)
  /\ (level = ALERT_OK <-> 18 <= t <= 36).
Proof.
  unfold temperature_alert, gtb. by_cases; cbn [snd];
    repeat split;
    solve [ intros D; discriminate D
          | congruence
          | intros; reflexivity
          | intros; exfalso; lra
          | intros; lra
          | intros; split; lra
          | intros; left; split; lra
          | intros; right; lra
          | intros [D | D]; reflexivity || (exfalso; lra) ].
Qed.

(** X10. With no maximum and no minimum forecast for today, the alert falls
    back on the air temperature, the night being taken as 8 degrees
    cooler: CRITICAL above 42 C, HIGH above 36 C or below 12 C, MODERATE
    from 12 C to below 18 C, OK from 18 C to 36 C. *)
Theorem temperature_alert_without_forecast (raw : Raw) (cropType : string) :
  well_formed (Some raw) = true ->
  at_index (temperature_2m_max (payload_daily raw)) 0 = None ->
  at_index (temperature_2m_min (payload_daily raw)) 0 = None ->
  exists m, deriveMetrics (Some raw) cropType = Ok m /\
    let t := temp m in
    tMax m = t /\ tMin m = t - 8
    /\ (tempAlertLevel m = ALERT_CRITICAL <-> 42 < t)
    /\ (tempAlertLevel m = ALERT_HIGH <-> 36 < t <= 42 \/ t < 12)
    /\ (tempAlertLevel m = ALERT_MODERATE <-> 12 <= t < 18)
    /\ (tempAlertLevel m = ALERT_OK <-> 18 <= t <= 36).
Proof.
  intros W Hmax Hmin.
  destruct (deriveMetrics_total (Some raw) cropType W) as [m E].
  exists m. split; [exact E |]. intros t.
  destruct (deriveMetrics_fields raw cropType m E)
    as (_ & _ & _ & _ & _ & _ & _ & A & _).
  destruct (deriveMetrics_labels raw cropType m E)
    as (_ & _ & _ & _ & Ht & Hx & Hn & _).
  assert (Tx : r_tMax (observed raw) = r_temp (observed raw)).
  { unfold observed, readings. cbn [r_tMax r_temp]. now rewrite Hmax. }
  assert (Tn : r_tMin (observed raw) = r_temp (observed raw) - 8).
  { unfold observed, readings. cbn [r_tMin r_temp]. now rewrite Hmin. }
  unfold t. rewrite Hx, Hn, Ht, Tx, Tn.
  split; [reflexivity |]. split; [reflexivity |].
  assert (L : tempAlertLevel m
              = snd (temperature_alert (r_temp (observed raw))
                                       (r_temp (observed raw) - 8)))
    by (rewrite <- Tx at 1; rewrite <- Tn; now rewrite <- A).
  rewrite L. apply temperature_alert_air.
Qed.

Lemma temperature_alert_without_forecast_witness :
  well_formed (Some muggy_day) = true
  /\ exists m, deriveMetrics (Some muggy_day) "Rice" = Ok m
       /\ tMin m = temp m - 8
       /\ tempAlertLevel m = ALERT_OK.
Proof.
  split; [reflexivity |].
  destruct (temperature_alert_without_forecast muggy_day "Rice"
              eq_refl eq_refl eq_refl)
    as [m [E (_ & N & _ & _ & _ & O)]].
  exists m. split; [exact E |]. split; [exact N |]. apply O.
  pose proof E as E'. vm_compute in E'. injection E' as <-.
  split; vm_compute; discriminate.
Defined.

(** ** Numbers printed with [toFixed] *)

Lemma ltb_comp (x x' y y' : Q) : x == x' -> y == y' -> (x <? y) = (x' <? y').
Proof. intros Hx Hy. unfold ltb. now rewrite Hx, Hy. Qed.

Lemma toFixed_comp (d : nat) (x y : Q) : x == y -> toFixed d x == toFixed d y.
Proof.
  intros H. unfold toFixed. rewrite (ltb_comp x y 0 0 H (Qeq_refl 0)).
  destruct (y <? 0).
  - rewrite (Qfloor_comp (- x * inject_Z (10 ^ Z.of_nat d) + 0.5)
                         (- y * inject_Z (10 ^ Z.of_nat d) + 0.5));
      [reflexivity | now rewrite H].
  - rewrite (Qfloor_comp (x * inject_Z (10 ^ Z.of_nat d) + 0.5)
                         (y * inject_Z (10 ^ Z.of_nat d) + 0.5));
      [reflexivity | now rewrite H].
Qed.

Lemma scale_pos (d : nat) : 0 < inject_Z (10 ^ Z.of_nat d).
Proof.
  change 0 with (inject_Z 0). rewrite <- Zlt_Qlt.
  apply Z.pow_pos_nonneg; lia.
Qed.

Lemma Qfloor_half (k : Z) : Qfloor (inject_Z k + 0.5) = k.
Proof. exact (Math_round_Z k). Qed.

(** A number that already has [d] decimals is printed as it is. *)
Lemma toFixed_of_decimal (d : nat) (k : Z) :
  toFixed d (inject_Z k / inject_Z (10 ^ Z.of_nat d))
  == inject_Z k / inject_Z (10 ^ Z.of_nat d).
Proof.
  pose proof (scale_pos d) as Hs. unfold toFixed.
  set (s := inject_Z (10 ^ Z.of_nat d)) in *.
  assert (Hs' : ~ s == 0) by lra.
  destruct (inject_Z k / s <? 0).
  - rewrite (Qfloor_comp (- (inject_Z k / s) * s + 0.5) (inject_Z (- k) + 0.5)).
    + rewrite Qfloor_half, inject_Z_opp. field. exact Hs'.
    + rewrite inject_Z_opp. field. exact Hs'.
  - rewrite (Qfloor_comp (inject_Z k / s * s + 0.5) (inject_Z k + 0.5)).
    + now rewrite Qfloor_half.
    + field. exact Hs'.
Qed.

Lemma toFixed_is_decimal (d : nat) (x : Q) :
  exists k : Z, toFixed d x == inject_Z k / inject_Z (10 ^ Z.of_nat d).
Proof.
  pose proof (scale_pos d) as Hs. unfold toFixed.
  set (s := inject_Z (10 ^ Z.of_nat d)) in *.
  assert (Hs' : ~ s == 0) by lra.
  destruct (x <? 0).
  - exists (- Qfloor (- x * s + 0.5))%Z. rewrite inject_Z_opp. field. exact Hs'.
  - eexists. reflexivity.
Qed.

Lemma toFixed_idempotent (d : nat) (x : Q) :
  toFixed d (toFixed d x) == toFixed d x.
Proof.
  destruct (toFixed_is_decimal d x) as [k Hk].
  rewrite (toFixed_comp d _ _ Hk), Hk. apply toFixed_of_decimal.
Qed.

Lemma m_score_of_shown (fraction shown : Q) :
  shown == soilMoisturePct fraction ->
  m_score fraction =
    if shown <? 5 then 10
    else if shown <? 15 then 40
    else if shown <? 20 then 70
    else if shown >? 60 then 50
    else if shown >? 45 then 75
    else 100.
Proof.
  intros H. unfold m_score, gtb.
  rewrite <- (ltb_comp shown _ 5 5 H (Qeq_refl 5)).
  rewrite <- (ltb_comp shown _ 15 15 H (Qeq_refl 15)).
  rewrite <- (ltb_comp shown _ 20 20 H (Qeq_refl 20)).
  rewrite <- (ltb_comp 60 60 shown _ (Qeq_refl 60) H).
  rewrite <- (ltb_comp 45 45 shown _ (Qeq_refl 45) H).
  reflexivity.
Qed.

Lemma aeration_score_of_shown (fraction shown : Q) :
  shown == soilMoisturePct fraction ->
  (shown <= 50 ->
   aeration_score fraction = if shown <? 10 then 40 else 90)
  /\ (50 < shown -> 20 <= aeration_score fraction < 100).
Proof.
  intros H. unfold aeration_score, gtb.
  rewrite <- (ltb_comp 50 50 shown _ (Qeq_refl 50) H).
  rewrite <- (ltb_comp shown _ 10 10 H (Qeq_refl 10)).
  split; intros C.
  - destruct (ltb_cases 50 shown) as [[C' ->] | [C' ->]]; [lra | reflexivity].
  - destruct (ltb_cases 50 shown) as [[C' ->] | [C' ->]]; [| lra].
    unfold Math_max. by_cases; lra.
Qed.

(** X11. The moisture and aeration scores can be read off the soil
    moisture shown: the moisture score is 10, 40 or 70 below 5, 15 or 20 %,
    50 or 75 above 60 or 45 %, and 100 in between; aeration is 40 below
    10 %, 90 from there up to 50 %, and at least 20 but short of 100 above
    50 %. *)
Theorem reported_soil_moisture (raw : Raw) (cropType : string) :
  well_formed (Some raw) = true ->
  exists m, deriveMetrics (Some raw) cropType = Ok m /\
    let shown := soilM m in
    mScore m =
      (if shown <? 5 then 10
       else if shown <? 15 then 40
       else if shown <? 20 then 70
       else if shown >? 60 then 50
       else if shown >? 45 then 75
       else 100)
    /\ (shown <= 50 -> aerationScore m = if shown <? 10 then 40 else 90)
    /\ (50 < shown -> 20 <= aerationScore m < 100).
Proof.
  intros W.
  destruct (deriveMetrics_total (Some raw) cropType W) as [m E].
  exists m. split; [exact E |]. intros shown.
  destruct (deriveMetrics_fields raw cropType m E)
    as (_ & _ & _ & _ & _ & _ & _ & _ & _ & Hm & _ & Ha & _).
  destruct (deriveMetrics_labels raw cropType m E)
    as (_ & _ & _ & _ & _ & _ & _ & Hs & _).
  assert (P : shown == soilMoisturePct (r_soilM (observed raw)))
    by (unfold shown; rewrite Hs; apply toFixed_idempotent).
  rewrite Hm, Ha.
  split; [now apply m_score_of_shown |].
  now apply aeration_score_of_shown.
Qed.

Lemma reported_soil_moisture_witness :
  well_formed (Some rough_week) = true
  /\ exists m, deriveMetrics (Some rough_week) "Maize" = Ok m
       /\ 20 <= aerationScore m < 100.
Proof.
  split; [reflexivity |].
  destruct (reported_soil_moisture rough_week "Maize" eq_refl)
    as [m [E (_ & _ & A)]].
  exists m. split; [exact E |]. apply A.
  pose proof E as E'. vm_compute in E'. injection E' as <-.
  vm_compute. reflexivity.
Defined.

(** ** The trend chart *)

Lemma bar_step : (chart_W - chart_PAD * 2) / 7 == 496 # 7.
Proof. reflexivity. Qed.

Lemma trend_bar_x (d : TrendDay) (i : nat) :
  bar_x (trend_bar d i) == 38 + inject_Z (Z.of_nat i) * (496 # 7).
Proof.
  unfold trend_bar. cbn [bar_x]. rewrite bar_step.
  unfold chart_PAD. ring.
Qed.

Lemma trend_bar_height (d : TrendDay) (i : nat) :
  (0 <= h d <= 100)%Z ->
  4 <= bar_height (trend_bar d i) <= 110
  /\ bar_y (trend_bar d i) + bar_height (trend_bar d i) == chart_H
  /\ ((4 <= h d)%Z -> bar_y (trend_bar d i) == grid_y (inject_Z (h d))).
Proof.
  intros [H0 H100]. rewrite !Zle_Qle in *.
  change (inject_Z 0) with 0 in H0. change (inject_Z 100) with 100 in H100.
  unfold trend_bar. cbn [bar_height bar_y]. unfold grid_y, chart_H.
  change (inject_Z 4) with 4.
  set (v := inject_Z (h d)) in *.
  assert (E : v * (120 - 10) / 100 == v * (11 # 10)) by (field).
  unfold Math_max.
  destruct (ltb_cases 4 (v * (120 - 10) / 100)) as [[C ->] | [C ->]];
    rewrite E in C; (split; [| split]);
    try rewrite E; try lra; try ring; intros; try lra.
Qed.

Lemma trend_bar_colour (d : TrendDay) (i : nat) :
  bar_col (trend_bar d i) = stress_color (h d)
  /\ bar_value (trend_bar d i) = h d
  /\ bar_tmax (trend_bar d i) = tmax d.
Proof. repeat split. Qed.

Lemma chart_days_some (i : nat) :
  (i < 7)%nat -> nth_error chart_days i <> None.
Proof.
  intros H. apply nth_error_Some. exact H.
Qed.

(** An empty trend draws nothing.  A trend of one to seven days with
    scores between 0 and 100 draws a chart with one bar a day, each bar
    inside the plot area: between the side paddings, standing on the axis,
    4 to 110 high, its value printed inside the view box and its day named
    below; bars do not touch, and a bar has the stress colour of its
    score. *)
Lemma chart_bars_fit (trend : list TrendDay) :
  (trend = [] -> HealthTrendChart trend = None)
  /\ ((1 <= List.length trend <= 7)%nat ->
      Forall (fun d => (0 <= h d <= 100)%Z) trend ->
      exists c, HealthTrendChart trend = Some c
        /\ List.length (bars c) = List.length trend
        /\ forall i b, nth_error (bars c) i = Some b ->
             chart_PAD <= bar_x b
             /\ bar_x b + chart_BAR_W <= chart_W - chart_PAD
             /\ 4 <= bar_height b <= chart_H - 10
             /\ bar_y b + bar_height b == chart_H
             /\ 0 < label_y b
             /\ bar_day b = nth_error chart_days i
             /\ bar_day b <> None
             /\ bar_col b = stress_color (bar_value b)
             /\ (forall b', nth_error (bars c) (S i) = Some b' ->
                 bar_x b + chart_BAR_W < bar_x b')).
Proof.
  split.
  - intros ->. reflexivity.
  - intros [L1 L7] Hh. unfold HealthTrendChart.
    destruct (List.length trend) as [| n] eqn:Len; [lia |].
    eexists. split; [reflexivity |]. cbn [bars]. unfold mapi.
    split; [now rewrite mapi_from_length |].
    intros i b Hb. rewrite mapi_from_nth_error in Hb. cbn [Nat.add] in Hb.
    destruct (nth_error trend i) as [d |] eqn:Hd; [| discriminate].
    cbn [option_map] in Hb. injection Hb as <-.
    assert (Hi : (i < 7)%nat).
    { assert (i < List.length trend)%nat
        by (apply nth_error_Some; congruence). lia. }
    assert (Hr : (0 <= h d <= 100)%Z).
    { rewrite Forall_forall in Hh. apply Hh.
      apply nth_error_In with i. exact Hd. }
    destruct (trend_bar_height d i Hr) as (Hht & Hy & _).
    pose proof (trend_bar_x d i) as Hx.
    assert (Qi : 0 <= inject_Z (Z.of_nat i) <= 6).
    { change 0 with (inject_Z 0). change 6 with (inject_Z 6).
      rewrite <- !Zle_Qle. lia. }
    unfold chart_PAD, chart_BAR_W, chart_W, chart_H in *.
    split; [rewrite Hx; lra |]. split; [rewrite Hx; lra |].
    split; [lra |]. split; [exact Hy |].
    split.
    { assert (Ly : label_y (trend_bar d i) == bar_y (trend_bar d i) - 5)
        by reflexivity. rewrite Ly. lra. }
    split; [reflexivity |].
    split; [now apply chart_days_some |].
    split; [apply trend_bar_colour |].
    intros b' Hb'. rewrite mapi_from_nth_error in Hb'. cbn [Nat.add] in Hb'.
    destruct (nth_error trend (S i)) as [d' |]; [| discriminate].
    cbn [option_map] in Hb'. injection Hb' as <-.
    rewrite Hx, (trend_bar_x d' (S i)).
    rewrite Nat2Z.inj_succ. unfold Z.succ. rewrite inject_Z_plus.
    change (inject_Z 1) with 1. lra.
Qed.

(** X13. The chart of a derived trend.  For a well-formed payload whose series
    of maxima, when it has one, holds one to seven days, the chart is drawn
    with one bar per trend entry, every bar inside the plot area and under
    its day name, and a day that scores what the field scores is drawn in
    the field's stress colour. *)
Theorem trend_chart_of_metrics (raw : Raw) (cropType : string) :
  well_formed (Some raw) = true ->
  (forall xs, temperature_2m_max (payload_daily raw) = Arr xs ->
     (1 <= List.length xs <= 7)%nat) ->
  exists m c,
    deriveMetrics (Some raw) cropType = Ok m
    /\ HealthTrendChart (trend m) = Some c
    /\ List.length (bars c) = List.length (trend m)
    /\ forall i b, nth_error (bars c) i = Some b ->
         chart_PAD <= bar_x b
         /\ bar_x b + chart_BAR_W <= chart_W - chart_PAD
         /\ 4 <= bar_height b <= chart_H - 10
         /\ bar_y b + bar_height b == chart_H
         /\ 0 < label_y b
         /\ bar_day b = nth_error chart_days i
         /\ bar_day b <> None
         /\ (bar_value b = health m -> bar_col b = stressColor m).
Proof.
  intros W Hlen.
  destruct (deriveMetrics_total (Some raw) cropType W) as [m E].
  destruct (deriveMetrics_fields raw cropType m E)
    as (_ & _ & _ & _ & _ & _ & _ & _ & T & _).
  destruct (deriveMetrics_labels raw cropType m E) as (_ & Col & _).
  assert (L : (1 <= List.length (trend m) <= 7)%nat).
  { rewrite T. unfold mapi. rewrite mapi_from_length.
    destruct (temperature_2m_max (payload_daily raw)) as [| xs | b] eqn:Hx;
      cbn [elements seven repeat List.length]; try lia.
    now apply Hlen. }
  assert (R : Forall (fun d => (0 <= h d <= 100)%Z) (trend m)).
  { rewrite T. apply Forall_mapi_from. intros x i. apply trend_h_range. }
  destruct (proj2 (chart_bars_fit (trend m)) L R) as [c (Hc & Hl & Hb)].
  exists m, c. split; [exact E |]. split; [exact Hc |]. split; [exact Hl |].
  intros i b Hi.
  destruct (Hb i b Hi) as (B1 & B2 & B3 & B4 & B5 & B6 & B7 & B8 & _).
  repeat (split; [assumption |]).
  intros V. rewrite B8, V, Col. reflexivity.
Qed.

Lemma trend_chart_of_metrics_witness :
  well_formed (Some mild_week) = true
  /\ exists m c,
       deriveMetrics (Some mild_week) "Rice" = Ok m
       /\ HealthTrendChart (trend m) = Some c
       /\ List.length (bars c) = 7%nat.
Proof.
  split; [reflexivity |].
  destruct (trend_chart_of_metrics mild_week "Rice" eq_refl)
    as [m [c (E & Hc & Hl & _)]].
  - intros xs Hx. injection Hx as <-. cbn. lia.
  - exists m, c. split; [exact E |]. split; [exact Hc |].
    rewrite Hl. pose proof E as E'. vm_compute in E'. injection E' as <-.
    reflexivity.
Defined.

(** X14. The chart has names for seven days only.  Nothing is drawn for an
    empty trend; in a longer trend, every bar from the eighth on has no day
    name and reaches past the right padding of the plot. *)
Theorem chart_beyond_seven_days (trend : list TrendDay) :
  (HealthTrendChart trend = None <-> trend = [])
  /\ forall c i b,
       HealthTrendChart trend = Some c ->
       nth_error (bars c) i = Some b ->
       (7 <= i)%nat ->
       bar_day b = None
       /\ chart_W - chart_PAD < bar_x b + chart_BAR_W.
Proof.
  split.
  - unfold HealthTrendChart. destruct trend; cbn [List.length];
      split; intros H; try reflexivity; discriminate H.
  - intros c i b Hc Hb Hi. unfold HealthTrendChart in Hc.
    destruct (List.length trend); [discriminate |].
    injection Hc as <-. cbn [bars] in Hb. unfold mapi in Hb.
    rewrite mapi_from_nth_error in Hb. cbn [Nat.add] in Hb.
    destruct (nth_error trend i) as [d |]; [| discriminate].
    cbn [option_map] in Hb. injection Hb as <-.
    split.
    + unfold trend_bar. cbn [bar_day]. apply nth_error_None. exact Hi.
    + rewrite (trend_bar_x d i).
      assert (Qi : 7 <= inject_Z (Z.of_nat i)).
      { change 7 with (inject_Z 7). rewrite <- Zle_Qle. lia. }
      unfold chart_W, chart_PAD, chart_BAR_W. lra.
Qed.

Lemma chart_beyond_seven_days_witness :
  exists c b,
    HealthTrendChart (repeat {| day := 0; h := 50; tmax := None; pr := 0 |} 8)
      = Some c
    /\ nth_error (bars c) 7 = Some b
    /\ bar_day b = None.
Proof.
  eexists. eexists. split; [reflexivity |]. split; [reflexivity |].
  refine (proj1 (proj2 (chart_beyond_seven_days
                          (repeat {| day := 0; h := 50; tmax := None; pr := 0 |}
                                  8))
                   _ 7%nat _ eq_refl eq_refl (le_n 7))).
Defined.

(** ** Running the analysis *)

(** A payload that is not well formed makes the function raise. *)
Lemma deriveMetrics_malformed (raw : option Raw) (cropType : string) :
  well_formed raw = false -> deriveMetrics raw cropType = Throw TypeError.
Proof.
  destruct raw as [raw |]; [| reflexivity].
  unfold well_formed, deriveMetrics, deriveMetrics_with. intros W.
  apply andb_false_iff in W.
  destruct (precipitation_sum (section (wx raw) daily no_daily))
    as [| ws | [|]]; cbn [or_array bind]; try reflexivity;
    destruct W as [W | W]; try discriminate W;
    apply callable_false in W; rewrite W; reflexivity.
Qed.

(** X15. A field with no first ring is not analysed at all.  For any other
    field the run raises the analysing flag, clears the metrics, asks for
    the weather at the centroid, and always ends by lowering the flag.  In
    between: when the request resolves to a well-formed payload the derived
    metrics are stored and a current polygon is restyled in their stress
    colour; when the request is rejected or the payload is malformed the
    metrics are cleared again, nothing is restyled, and no exception
    leaves the run. *)
Theorem runAnalysis_outcome (gj : option Feature) (fetch : Q -> Q -> fetched)
    (form_crop : string) (polygon : bool) :
  (outer_ring gj = [] -> runAnalysis gj fetch form_crop polygon = [])
  /\ forall c, geojsonCentroid gj = Some c ->
       exists middle,
         runAnalysis gj fetch form_crop polygon =
           [SetAnalyzing true; SetMetrics None;
            FetchFarmAnalysis (lat c) (lng c)]
           ++ middle ++ [SetAnalyzing false]
         /\ (forall w,
               fetch (lat c) (lng c) = Resolved w ->
               well_formed (Some {| wx := w |}) = true ->
               exists m,
                 deriveMetrics (Some {| wx := w |}) form_crop = Ok m
                 /\ middle =
                      SetMetrics (Some m)
                      :: (if polygon
                          then [SetStyle {| color := stressColor m;
                                            fillColor := stressColor m;
                                            fillOpacity := 0.22;
                                            weight := 2 |}]
                          else []))
         /\ (forall w,
               fetch (lat c) (lng c) = Resolved w ->
               well_formed (Some {| wx := w |}) = false ->
               middle = [SetMetrics None])
         /\ (fetch (lat c) (lng c) = Rejected -> middle = [SetMetrics None]).
Proof.
  split.
  - intros R. unfold runAnalysis, geojsonCentroid. now rewrite R.
  - intros c Hc. unfold runAnalysis. rewrite Hc.
    eexists. split; [reflexivity |].
    destruct (fetch (lat c) (lng c)) as [| w].
    + repeat split; intros; try discriminate; reflexivity.
    + split; [| split]; [| | discriminate].
      * intros w' Hw W. injection Hw as <-.
        destruct (deriveMetrics_total _ form_crop W) as [m E].
        exists m. split; [exact E |]. now rewrite E.
      * intros w' Hw W. injection Hw as <-.
        now rewrite (deriveMetrics_malformed _ form_crop W).
Qed.

Lemma runAnalysis_outcome_witness :
  exists c middle,
    geojsonCentroid square_field = Some c
    /\ runAnalysis square_field (fun _ _ => Rejected) "Wheat" true =
         [SetAnalyzing true; SetMetrics None;
          FetchFarmAnalysis (lat c) (lng c)]
         ++ middle ++ [SetAnalyzing false]
    /\ middle = [SetMetrics None].
Proof.
  eexists.
  destruct (proj2 (runAnalysis_outcome square_field (fun _ _ => Rejected)
                     "Wheat" true) _ eq_refl)
    as [middle (T & _ & _ & R)].
  exists middle. split; [reflexivity |]. split; [exact T |].
  apply R. reflexivity.
Defined.

(** ** A day whose maximum is missing *)

Lemma trend_h_null (sm uv pr : Q) : (34 <= trend_h None sm uv pr <= 64)%Z.
Proof.
  unfold trend_h. cbv zeta.
  match goal with
  | |- (34 <= Z.max 0 (Z.min 100 (Math_round ?x)) <= 64)%Z =>
      assert (R : (34 <= Math_round x <= 64)%Z)
  end.
  { apply Math_round_between. change (inject_Z 34) with 34.
    change (inject_Z 64) with 64. unfold ToNumber, nullish, gtb.
    by_cases; lra. }
  lia.
Qed.

(** X16. A [null] in the series of maxima is scored as a day at 0 C: the entry
    of that day shows no maximum, and its score is at most 64 and at least
    34, whatever the rest of the forecast says. *)
Theorem null_maximum_day (raw : Raw) (cropType : string) :
  well_formed (Some raw) = true ->
  exists m, deriveMetrics (Some raw) cropType = Ok m /\
    forall xs i d,
      temperature_2m_max (payload_daily raw) = Arr xs ->
      nth_error xs i = Some None ->
      nth_error (trend m) i = Some d ->
      tmax d = None /\ (34 <= h d <= 64)%Z.
Proof.
  intros W.
  destruct (deriveMetrics_total (Some raw) cropType W) as [m E].
  exists m. split; [exact E |].
  destruct (deriveMetrics_fields raw cropType m E)
    as (_ & _ & _ & _ & _ & _ & _ & _ & T & _).
  intros xs i d Hx Hn Hd.
  rewrite T, Hx in Hd. cbn [elements] in Hd. unfold mapi in Hd.
  rewrite mapi_from_nth_error, Hn in Hd. cbn [option_map] in Hd.
  injection Hd as <-. cbn [tmax h trend_day option_map].
  split; [reflexivity | apply trend_h_null].
Qed.

Lemma null_maximum_day_witness :
  well_formed (Some null_maximum) = true
  /\ exists m, deriveMetrics (Some null_maximum) "Wheat" = Ok m
       /\ forall d, nth_error (trend m) 0 = Some d ->
            tmax d = None /\ (34 <= h d <= 64)%Z.
Proof.
  split; [reflexivity |].
  destruct (null_maximum_day null_maximum "Wheat" eq_refl) as [m [E N]].
  exists m. split; [exact E |].
  intros d Hd. exact (N _ 0%nat d eq_refl eq_refl Hd).
Defined.
